(** * Banner: a shallow embedding of [packages/react/src/Banner/Banner.tsx]

    The component functions of the source are embedded as Rocq functions
    that build element trees; the host framework (hooks, context, the
    render pass, the commit and its effects) and the style sheet of
    [StyledBanner] are modelled as far as the Banner relies on them. *)

From Stdlib Require Import ZArith.
From stdpp Require Import gmap strings list fin_maps pretty.

Local Open Scope string_scope.
Local Open Scope Z_scope.

(** ** Values of props and attributes *)

(** A scalar prop value as the components receive it at run time: a
    string, a number, a boolean, a callback (an opaque handle) or a
    component passed as a value ([icon={XIcon}]). *)
Inductive PropValue :=
| PStr (s : string)
| PNum (z : Z)
| PBool (b : bool)
| PFun (handle : nat)
| PComp (name : string).

(** A props object: string keys, at most one value per key. *)
Abbreviation Props := (gmap string PropValue).

(** JS truthiness of a scalar value. *)
Definition truthy_value (v : PropValue) : bool :=
  match v with
  | PStr s => negb (String.eqb s "")
  | PNum z => negb (z =? 0)
  | PBool b => b
  | PFun _ | PComp _ => true
  end.

(** The attributes of a JSX element are applied left to right: a named
    attribute writes its key, a spread [{...m}] writes every key of [m];
    whatever is written later wins. *)
Inductive JsxAttr :=
| Attr (k : string) (v : PropValue)
| Spread (m : Props).

Definition jsx_attr (acc : Props) (a : JsxAttr) : Props :=
  match a with
  | Attr k v => <[k:=v]> acc
  | Spread m => m ∪ acc
  end.

Definition jsx_props (attrs : list JsxAttr) : Props :=
  foldl jsx_attr ∅ attrs.

(** Rest destructuring [{k1, ..., kn, ...rest} = props]: [rest] has
    every key of [props] but the ones named. *)
Definition omit (keys : list string) (props : Props) : Props :=
  foldr delete props keys.

(** ** clsx *)

(** [toVal] of clsx on the scalar values: strings and numbers are
    printed, everything else contributes nothing. *)
Definition toVal (mix : PropValue) : string :=
  match mix with
  | PStr s => s
  | PNum z => pretty z
  | _ => ""
  end.

(** [cx(a1, ..., an)]: the printed truthy arguments, joined by one
    space.  An argument that is [undefined] is [None]. *)
Definition cx_step (str : string) (arg : option PropValue) : string :=
  match arg with
  | Some tmp =>
      if truthy_value tmp then
        let x := toVal tmp in
        if String.eqb x "" then str
        else (if String.eqb str "" then str else str +:+ " ") +:+ x
      else str
  | None => str
  end.

Definition cx (args : list (option PropValue)) : string :=
  foldl cx_step "" args.

(** ** Element trees *)

Inductive BannerVariant := critical | info | success | upsell | warning.

#[global] Instance BannerVariant_eq_dec : EqDecision BannerVariant.
Proof. solve_decision. Defined.

Inductive HeadingElement := h2 | h3 | h4 | h5 | h6.

Definition variant_name (v : BannerVariant) : string :=
  match v with
  | critical => "critical"
  | info => "info"
  | success => "success"
  | upsell => "upsell"
  | warning => "warning"
  end.

Definition heading_tag (h : HeadingElement) : string :=
  match h with
  | h2 => "h2" | h3 => "h3" | h4 => "h4" | h5 => "h5" | h6 => "h6"
  end.

(** What an element is an instance of: a host tag, or a component that
    lives outside this file (the Button family, the octicons). *)
Inductive ElemType :=
| Host (tag : string)
| External (name : string).

(** [type BannerContextValue = {titleId: string}] *)
Record BannerContextValue := { titleId : string }.

(** The props of the Banner root.  The node-valued props and the
    callback are fields; [bp_attrs] holds every other key of the props
    object. *)
Record BannerProps (Node : Type) := {
  bp_children : Node;
  bp_description : Node;
  bp_icon : Node;
  bp_onDismiss : option nat;
  bp_primaryAction : Node;
  bp_secondaryAction : Node;
  bp_title : Node;
  bp_variant : option BannerVariant;
  bp_attrs : Props;
}.
Arguments bp_children {Node} _.
Arguments bp_description {Node} _.
Arguments bp_icon {Node} _.
Arguments bp_onDismiss {Node} _.
Arguments bp_primaryAction {Node} _.
Arguments bp_secondaryAction {Node} _.
Arguments bp_title {Node} _.
Arguments bp_variant {Node} _.
Arguments bp_attrs {Node} _.

(** [React.ReactNode], with the elements of this file's components as
    constructors of their own. *)
#[local] Set Warnings "-register-all".
Inductive ReactNode :=
| JUndefined
| JNull
| JBool (b : bool)
| JStr (s : string)
| JNum (z : Z)
| JArr (items : list ReactNode)
| JElem (ty : ElemType) (props : Props) (children : list ReactNode)
| JProvider (value : BannerContextValue) (children : list ReactNode)
| JBanner (props : BannerProps ReactNode)
| JBannerTitle (as_ : option HeadingElement) (props : Props) (children : ReactNode)
| JBannerDescription (props : Props) (children : ReactNode)
| JBannerActions (primaryAction secondaryAction : ReactNode)
| JBannerPrimaryAction (props : Props) (children : ReactNode)
| JBannerSecondaryAction (props : Props) (children : ReactNode).

(** JS truthiness of a node: [undefined], [null], [false], [0] and the
    empty string are falsy. *)
Definition truthy (n : ReactNode) : bool :=
  match n with
  | JUndefined | JNull => false
  | JBool b => b
  | JStr s => negb (String.eqb s "")
  | JNum z => negb (z =? 0)
  | _ => true
  end.

Definition nullish (n : ReactNode) : bool :=
  match n with
  | JUndefined | JNull => true
  | _ => false
  end.

(** [a ?? b] *)
Definition nullish_or (a b : ReactNode) : ReactNode :=
  if nullish a then b else a.

Infix "??" := nullish_or (at level 45, right associativity).

(** ** The rendered tree *)

Inductive Dom :=
| DText (s : string)
| DElem (ty : ElemType) (attrs : Props) (kids : list Dom).

Definition has_id (id : string) (attrs : Props) : bool :=
  match attrs !! "id" with
  | Some (PStr s) => String.eqb s id
  | _ => false
  end.

(** The number of elements of a tree whose [id] is [id]. *)
Fixpoint count_id (id : string) (d : Dom) : nat :=
  match d with
  | DText _ => 0%nat
  | DElem _ attrs kids =>
      ((if has_id id attrs then 1 else 0) +
       (fix go (l : list Dom) : nat :=
          match l with
          | [] => 0
          | k :: l => count_id id k + go l
          end) kids)%nat
  end.

Definition count_ids (id : string) (l : list Dom) : nat :=
  foldr (λ d n, (count_id id d + n)%nat) 0%nat l.

(** [document.getElementById]: the first element, in document order,
    with that [id]. *)
Fixpoint getElementById (id : string) (d : Dom) : option Dom :=
  match d with
  | DText _ => None
  | DElem _ attrs kids =>
      if has_id id attrs then Some d
      else
        (fix go (l : list Dom) : option Dom :=
           match l with
           | [] => None
           | k :: l =>
               match getElementById id k with
               | Some e => Some e
               | None => go l
               end
           end) kids
  end.

Fixpoint document_getElementById (id : string) (document : list Dom)
  : option Dom :=
  match document with
  | [] => None
  | d :: document =>
      match getElementById id d with
      | Some e => Some e
      | None => document_getElementById id document
      end
  end.

(** ** The render pass *)

(** [new Error(message)] *)
Inductive Error := mkError (message : string).

Inductive Outcome (A : Type) :=
| Done (a : A)
| Throw (e : Error)
| OutOfFuel.
Arguments Done {A} a.
Arguments Throw {A} e.
Arguments OutOfFuel {A}.

(** An effect passed to [useEffect] runs after the commit, against the
    document. *)
Definition Effect : Type := list Dom → Outcome unit.

(** What a render pass threads through the components: the supply of
    [useId] and the effects scheduled so far. *)
Record RenderState := {
  next_id : nat;
  effects : list Effect;
}.

Definition Render (A : Type) : Type := RenderState → Outcome (A * RenderState).

#[global] Instance Render_ret : MRet Render := λ A a st, Done (a, st).

#[global] Instance Render_bind : MBind Render := λ A B f m st,
  match m st with
  | Done (a, st') => f a st'
  | Throw e => Throw e
  | OutOfFuel => OutOfFuel
  end.

Definition throw {A} (e : Error) : Render A := λ _, Throw e.

Definition out_of_fuel {A} : Render A := λ _, OutOfFuel.

(** [useId()]: an identifier no other call of the pass returns. *)
Definition mkId (n : nat) : string := ":r" +:+ pretty n +:+ ":".

Definition useId : Render string := λ st,
  Done (mkId (next_id st),
        {| next_id := S (next_id st); effects := effects st |}).

Definition useEffect (effect : Effect) : Render unit := λ st,
  Done (tt, {| next_id := next_id st; effects := effects st ++ [effect] |}).

(** [createContext<BannerContextValue | null>(null)]: what a component
    reads where no provider is above it. *)
Definition BannerContext : option BannerContextValue := None.

(** [useContext(BannerContext)]: the value of the nearest provider
    above, or the default. *)
Definition useContext (ctx : option BannerContextValue)
  : Render (option BannerContextValue) := mret ctx.

(** ** The components *)

Definition ContextMisuse : Error :=
  mkError "Component must be used within a <Banner> component".

Definition MissingAccessibleTitle : Error :=
  mkError "The Banner component requires a title to be provided as the `title` prop or through `Banner.Title`".

Definition useBanner (ctx : option BannerContextValue)
  : Render BannerContextValue :=
  value ← useContext ctx;
  match value with
  | Some value => mret value
  | None => throw ContextMisuse
  end.

Definition icon_element (name : string) : ReactNode :=
  JElem (External name) ∅ [].

Definition iconForVariant (v : BannerVariant) : ReactNode :=
  match v with
  | critical => icon_element "StopIcon"
  | info => icon_element "InfoIcon"
  | success => icon_element "CheckCircleIcon"
  | upsell => icon_element "InfoIcon"
  | warning => icon_element "AlertIcon"
  end.

Definition div (className : string) (children : list ReactNode) : ReactNode :=
  JElem (Host "div") (jsx_props [Attr "className" (PStr className)]) children.

(** ** The styling library *)

(** The class names the library generates for the template of
    [StyledBanner] (a component id and a hash of its rules), written
    here as one class: the element carries it, and every rule of the
    template is scoped to it. *)
Definition StyledBanner_class : string := "StyledBanner".

(** [String(v)], as [join] prints a class.  (A function prints as its
    source text; the model has its handle only, and writes that.) *)
Definition js_string (v : PropValue) : string :=
  match v with
  | PStr s => s
  | PNum z => pretty z
  | PBool true => "true"
  | PBool false => "false"
  | PFun h => "function#" +:+ pretty h
  | PComp name => name
  end.

(** [[generated, props.className].filter(Boolean).join(' ')] *)
Definition styled_className (generated : string)
    (className : option PropValue) : string :=
  match className with
  | Some v =>
      if truthy_value v then generated +:+ " " +:+ js_string v else generated
  | None => generated
  end.

(** Keys the attribute filter of the library lets through whatever
    the rest of its table says: every [data-*] and [aria-*] key, [id]
    and [tabIndex]. *)
Definition known_attr (k : string) : bool :=
  String.prefix "data-" k || String.prefix "aria-" k ||
  bool_decide (k ∈ ["id"; "tabIndex"]).

(** A filter whose table has nothing beyond the known keys. *)
Definition no_other_attr (k : string) : bool := false.

Section Styled.

(** The rest of the table of the attribute filter, which lives in the
    library and not in this repository: the keys it lets through to a
    host element beyond the known ones. *)
Variable validAttr : string → bool.

Definition forwarded (k : string) : bool := known_attr k || validAttr k.

(** The props a styled component hands to its host element: the ones
    the filter lets through, [as] apart, and a [className] that starts
    with the generated class.  (The forwarded [ref] is not a prop of
    the element and is left out; the control keys of the library other
    than [as], that is [forwardedAs], [theme] and the transient keys in
    [$], are not modelled.) *)
Definition styled_attrs (generated : string) (props : Props) : Props :=
  <["className" :=
      PStr (styled_className generated (props !! "className"))]>
    (filter (λ kv : string * PropValue,
               kv.1 ≠ "as" ∧ forwarded kv.1 = true) props).

(** A styled component takes its tag from the [as] prop when there is
    one. *)
Definition styled (generated tag : string) (props : Props)
    (children : list ReactNode) : ReactNode :=
  let elementToBeCreated :=
    match props !! "as" with
    | Some (PStr t) => t
    | _ => tag
    end in
  JElem (Host elementToBeCreated) (styled_attrs generated props) children.

Definition StyledBanner : Props → list ReactNode → ReactNode :=
  styled StyledBanner_class "div".

Definition Banner_keys : list string :=
  ["children"; "description"; "icon"; "onDismiss"; "primaryAction";
   "secondaryAction"; "title"; "variant"].

Section Components.

(** The build flag. *)
Variable __DEV__ : bool.

Definition Banner (props : BannerProps ReactNode) : Render ReactNode :=
  let children := bp_children props in
  let description := bp_description props in
  let icon := bp_icon props in
  let onDismiss := bp_onDismiss props in
  let primaryAction := bp_primaryAction props in
  let secondaryAction := bp_secondaryAction props in
  let title := bp_title props in
  let variant := default info (bp_variant props) in
  let rest := omit Banner_keys (bp_attrs props) in
  titleId ← useId;
  let value := {| titleId := titleId |} in
  (* [variant !== 'critical' && onDismiss]: [false], or [onDismiss] *)
  let dismissible :=
    if bool_decide (variant ≠ critical) then onDismiss else None in
  (* [primaryAction || secondaryAction], only ever tested for truth *)
  let hasActions := truthy primaryAction || truthy secondaryAction in
  _ ← (if __DEV__ then
         useEffect (λ document,
           let title := document_getElementById titleId document in
           match title with
           | None => Throw MissingAccessibleTitle
           | Some _ => Done tt
           end)
       else mret tt);
  mret
    (JProvider value
       [StyledBanner
          (jsx_props [Spread rest;
                      Attr "aria-labelledby" (PStr titleId);
                      Attr "as" (PStr "section");
                      Attr "data-variant" (PStr (variant_name variant));
                      Attr "tabIndex" (PNum (-1))])
          [div "BannerIcon" [icon ?? iconForVariant variant];
           div "BannerContainer"
             [div "BannerContent"
                [if truthy title then JBannerTitle None ∅ title else JNull;
                 if truthy description
                 then JBannerDescription ∅ description else JNull;
                 children];
              if hasActions
              then JBannerActions primaryAction secondaryAction else JNull];
           match dismissible with
           | Some onDismiss =>
               JElem (External "IconButton")
                 (jsx_props [Attr "aria-label" (PStr "Dismiss banner");
                             Attr "onClick" (PFun onDismiss);
                             Attr "className" (PStr "BannerDismiss");
                             Attr "icon" (PComp "XIcon");
                             Attr "variant" (PStr "invisible")])
                 []
           | None => JNull
           end]]).

Definition BannerTitle (ctx : option BannerContextValue)
    (as_ : option HeadingElement) (props : Props) (children : ReactNode)
  : Render ReactNode :=
  let Heading := default h2 as_ in
  let className := props !! "className" in
  let rest := omit ["as"; "className"; "children"] props in
  banner ← useBanner ctx;
  mret
    (JElem (Host (heading_tag Heading))
       (jsx_props [Spread rest;
                   Attr "id" (PStr (titleId banner));
                   Attr "className"
                     (PStr (cx [Some (PStr "BannerTitle"); className]))])
       [children]).

Definition BannerDescription (props : Props) (children : ReactNode)
  : ReactNode :=
  let className := props !! "className" in
  let rest := omit ["children"; "className"] props in
  JElem (Host "div")
    (jsx_props [Spread rest;
                Attr "className"
                  (PStr (cx [Some (PStr "BannerDescription"); className]))])
    [children].

Definition BannerActions (primaryAction secondaryAction : ReactNode)
  : ReactNode :=
  div "BannerActions"
    [JElem (Host "div")
       (jsx_props [Attr "className" (PStr "BannerActionsContainer");
                   Attr "data-hide-on-sm" (PStr "")])
       [secondaryAction ?? JNull; primaryAction ?? JNull];
     JElem (Host "div")
       (jsx_props [Attr "className" (PStr "BannerActionsContainer");
                   Attr "data-hide-on-md" (PStr "")])
       [primaryAction ?? JNull; secondaryAction ?? JNull]].

Definition BannerPrimaryAction (props : Props) (children : ReactNode)
  : ReactNode :=
  let className := props !! "className" in
  let rest := omit ["children"; "className"] props in
  JElem (External "Button")
    (jsx_props [Attr "className"
                  (PStr (cx [Some (PStr "BannerPrimaryAction"); className]));
                Attr "variant" (PStr "default");
                Spread rest])
    [children].

Definition BannerSecondaryAction (props : Props) (children : ReactNode)
  : ReactNode :=
  let className := props !! "className" in
  let rest := omit ["children"; "className"] props in
  JElem (External "Button")
    (jsx_props [Attr "className"
                  (PStr (cx [Some (PStr "BannerPrimaryAction"); className]));
                Attr "variant" (PStr "invisible");
                Spread rest])
    [children].

End Components.

(** ** Rendering element trees *)

Section Render.

Variable __DEV__ : bool.

(** One render pass over an element tree, under the context value
    [ctx] of the nearest provider above.  A component element is
    replaced by what its function returns, and that is rendered in
    turn; host and external elements keep their props and get the
    rendering of their children.  [fuel] bounds the nesting. *)
Fixpoint render (fuel : nat) (ctx : option BannerContextValue)
    (node : ReactNode) : Render (list Dom) :=
  match fuel with
  | O => out_of_fuel
  | S fuel =>
      match node with
      | JUndefined | JNull | JBool _ => mret []
      | JStr s => mret [DText s]
      | JNum z => mret [DText (pretty z)]
      | JArr items =>
          kids ← mapM (render fuel ctx) items;
          mret (concat kids)
      | JElem ty props children =>
          kids ← mapM (render fuel ctx) children;
          mret [DElem ty props (concat kids)]
      | JProvider value children =>
          kids ← mapM (render fuel (Some value)) children;
          mret (concat kids)
      | JBanner props =>
          tree ← Banner __DEV__ props;
          render fuel ctx tree
      | JBannerTitle as_ props children =>
          tree ← BannerTitle ctx as_ props children;
          render fuel ctx tree
      | JBannerDescription props children =>
          render fuel ctx (BannerDescription props children)
      | JBannerActions primaryAction secondaryAction =>
          render fuel ctx (BannerActions primaryAction secondaryAction)
      | JBannerPrimaryAction props children =>
          render fuel ctx (BannerPrimaryAction props children)
      | JBannerSecondaryAction props children =>
          render fuel ctx (BannerSecondaryAction props children)
      end
  end.

(** The effects of a commit run in turn against the document; the
    first one that throws ends the run.  (The framework runs the
    effects of children before those of their parents, the pass
    schedules them in the order the components are called; the only
    effect of this file throws one and the same error, so which effect
    throws first does not show in the outcome.) *)
Fixpoint run_effects (document : list Dom) (effs : list Effect)
  : Outcome unit :=
  match effs with
  | [] => Done tt
  | eff :: effs =>
      match eff document with
      | Done _ => run_effects document effs
      | Throw e => Throw e
      | OutOfFuel => OutOfFuel
      end
  end.

Definition initial_state : RenderState :=
  {| next_id := 0; effects := [] |}.

(** Mounting a root: render it outside any provider, commit the
    result as the document, then run the scheduled effects. *)
Definition mount (fuel : nat) (root : ReactNode) : Outcome (list Dom) :=
  match render fuel BannerContext root initial_state with
  | Done (document, st) =>
      match run_effects document (effects st) with
      | Done _ => Done document
      | Throw e => Throw e
      | OutOfFuel => OutOfFuel
      end
  | Throw e => Throw e
  | OutOfFuel => OutOfFuel
  end.

End Render.

(** ** The tree the Banner root returns *)

(** The attributes the root puts on its container. *)
Definition container_attrs (p : BannerProps ReactNode) (titleId : string)
  : Props :=
  styled_attrs StyledBanner_class
    (jsx_props [Spread (omit Banner_keys (bp_attrs p));
                Attr "aria-labelledby" (PStr titleId);
                Attr "as" (PStr "section");
                Attr "data-variant"
                  (PStr (variant_name (default info (bp_variant p))));
                Attr "tabIndex" (PNum (-1))]).

(** The three slots of the container, as the root fills them. *)
Definition icon_slot (p : BannerProps ReactNode) : ReactNode :=
  div "BannerIcon" [bp_icon p ?? iconForVariant (default info (bp_variant p))].

Definition content_slot (p : BannerProps ReactNode) : ReactNode :=
  div "BannerContent"
    [if truthy (bp_title p) then JBannerTitle None ∅ (bp_title p) else JNull;
     if truthy (bp_description p)
     then JBannerDescription ∅ (bp_description p) else JNull;
     bp_children p].


Definition actions_slot (p : BannerProps ReactNode) : ReactNode :=
  if truthy (bp_primaryAction p) || truthy (bp_secondaryAction p)
  then JBannerActions (bp_primaryAction p) (bp_secondaryAction p) else JNull.

Definition dismiss_button (onDismiss : nat) : ReactNode :=
  JElem (External "IconButton")
    (jsx_props [Attr "aria-label" (PStr "Dismiss banner");
                Attr "onClick" (PFun onDismiss);
                Attr "className" (PStr "BannerDismiss");
                Attr "icon" (PComp "XIcon");
                Attr "variant" (PStr "invisible")])
    [].

Definition dismiss_slot (p : BannerProps ReactNode) : ReactNode :=
  match (if bool_decide (default info (bp_variant p) ≠ critical)
         then bp_onDismiss p else None) with
  | Some onDismiss => dismiss_button onDismiss
  | None => JNull
  end.

Definition Banner_tree (p : BannerProps ReactNode) (titleId : string)
  : ReactNode :=
  JProvider {| titleId := titleId |}
    [JElem (Host "section") (container_attrs p titleId)
       [icon_slot p;
        div "BannerContainer" [content_slot p; actions_slot p];
        dismiss_slot p]].

(** ** The style sheet of [StyledBanner]: which boxes are displayed *)

Inductive Display := d_block | d_grid | d_flex | d_none.

(** [.c] and [[a]] *)
Inductive Simple :=
| ByClass (c : string)
| ByAttr (a : string).

(** A selector of the template: the root itself ([&]), [s], or
    [anc s] (an element matching [s] with an ancestor matching [anc]).
    The library scopes the template to the generated class, so that in
    the sheet these read [.root], [.root s] and [.root anc s]. *)
Inductive Selector :=
| Root
| Self (s : Simple)
| Descendant (anc s : Simple).

(** A rule setting [display], with the [min-width] (in px) of the media
    query around it, if any. *)
Record Rule := {
  media_min_width : option Z;
  selector : Selector;
  display : Display;
}.

(** The rules of the template that set [display], in source order. *)
Definition StyledBanner_rules : list Rule :=
  [ {| media_min_width := None; selector := Root; display := d_grid |};
    {| media_min_width := None; selector := Self (ByClass "BannerIcon");
       display := d_grid |};
    {| media_min_width := None; selector := Self (ByClass "BannerContainer");
       display := d_grid |};
    {| media_min_width := None; selector := Self (ByClass "BannerContent");
       display := d_grid |};
    {| media_min_width := None;
       selector := Self (ByClass "BannerActionsContainer");
       display := d_flex |};
    {| media_min_width := None;
       selector := Descendant (ByClass "BannerActions") (ByAttr "data-hide-on-sm");
       display := d_none |};
    {| media_min_width := Some 544;
       selector := Descendant (ByClass "BannerActions") (ByAttr "data-hide-on-sm");
       display := d_flex |};
    {| media_min_width := Some 544;
       selector := Descendant (ByClass "BannerActions") (ByAttr "data-hide-on-md");
       display := d_none |};
    {| media_min_width := None; selector := Self (ByClass "BannerDismiss");
       display := d_grid |} ].

Definition has_class (c : string) (attrs : Props) : bool :=
  match attrs !! "className" with
  | Some (PStr s) => bool_decide (c ∈ String.words s)
  | _ => false
  end.

Definition matches_simple (s : Simple) (attrs : Props) : bool :=
  match s with
  | ByClass c => has_class c attrs
  | ByAttr a => bool_decide (is_Some (attrs !! a))
  end.

(** Whether the root of a [StyledBanner] is among the elements above:
    every rule of the template applies below such a root only. *)
Definition root_scoped (ancestors : list Props) : bool :=
  existsb (has_class StyledBanner_class) ancestors.

(** The elements above the nearest ancestor matching [s]. *)
Fixpoint above (s : Simple) (ancestors : list Props) : option (list Props) :=
  match ancestors with
  | [] => None
  | a :: ancestors =>
      if matches_simple s a then Some ancestors else above s ancestors
  end.

(** [ancestors] are the attributes of the elements above, nearest
    first.  A selector [s] of the template is [.root s] in the sheet,
    and [anc s] is [.root anc s]. *)
Definition matches (sel : Selector) (ancestors : list Props) (attrs : Props)
  : bool :=
  match sel with
  | Root => has_class StyledBanner_class attrs
  | Self s => matches_simple s attrs && root_scoped ancestors
  | Descendant anc s =>
      matches_simple s attrs &&
      match above anc ancestors with
      | Some higher => root_scoped higher
      | None => false
      end
  end.

Definition specificity (sel : Selector) : nat :=
  match sel with
  | Root => 1
  | Self _ => 2
  | Descendant _ _ => 3
  end.

Definition media_holds (width : Z) (r : Rule) : bool :=
  match media_min_width r with
  | Some w => w <=? width
  | None => true
  end.

(** The cascade: of the rules that apply, the most specific wins, and
    of equally specific ones the last. *)
Definition cascade_step (width : Z) (ancestors : list Props) (attrs : Props)
    (best : option (nat * Display)) (r : Rule) : option (nat * Display) :=
  if media_holds width r && matches (selector r) ancestors attrs then
    match best with
    | Some (sp, _) =>
        if (sp <=? specificity (selector r))%nat
        then Some (specificity (selector r), display r) else best
    | None => Some (specificity (selector r), display r)
    end
  else best.

(** The computed [display] of an element of the banner at viewport
    width [width]; a [div] no rule applies to is a block. *)
Definition computed_display (width : Z) (ancestors : list Props)
    (attrs : Props) : Display :=
  match foldl (cascade_step width ancestors attrs) None StyledBanner_rules with
  | Some (_, d) => d
  | None => d_block
  end.

(** The child lists of the arrangements of an actions region that are
    displayed at [width], the region sitting below [ancestors]. *)
Definition visible_arrangements (width : Z) (ancestors : list Props)
    (region : ReactNode) : list (list ReactNode) :=
  match region with
  | JElem _ outer containers =>
      omap (λ c,
              match c with
              | JElem _ attrs kids =>
                  match computed_display width (outer :: ancestors) attrs with
                  | d_none => None
                  | _ => Some kids
                  end
              | _ => None
              end) containers
  | _ => []
  end.

(** The dismiss control: the [IconButton] carrying the class
    [BannerDismiss]. *)
Definition is_dismiss_control (n : ReactNode) : bool :=
  match n with
  | JElem (External "IconButton") props _ => has_class "BannerDismiss" props
  | _ => false
  end.

(** A node renders: from every state the pass returns a tree. *)
Definition renders (dev : bool) (fuel : nat) (ctx : option BannerContextValue)
    (n : ReactNode) : Prop :=
  ∀ st, ∃ doms st', render dev fuel ctx n st = Done (doms, st').

(** ** Title sources *)

(** How many elements of the rendering of the content of a Banner root
    carry the identifier [tid], given a counter [tc] for nodes: one for
    a truthy [title] prop when the root's own identifier is [tid]
    ([bound]), the ones of the nodes handed in as props, and the
    container itself if the caller gave it that [id]. *)
Definition banner_count (tc : ReactNode → nat) (tid : string) (bound : bool)
    (p : BannerProps ReactNode) : nat :=
  (Nat.b2n (has_id tid (bp_attrs p)) +
   tc (bp_icon p) +
   (if truthy (bp_title p) then Nat.b2n bound + tc (bp_title p) else 0) +
   (if truthy (bp_description p) then tc (bp_description p) else 0) +
   tc (bp_children p) +
   (if truthy (bp_primaryAction p) || truthy (bp_secondaryAction p)
    then 2 * (tc (bp_primaryAction p) + tc (bp_secondaryAction p)) else 0))%nat.

(** The number of sources of an element with identifier [tid] in a
    node: each Title that reads a context holding [tid] ([bound] says
    whether the context above does), and each element the caller gave
    that [id] by hand.  A nested Banner root provides its own
    identifier to what is below it. *)
Fixpoint title_count (tid : string) (bound : bool) (n : ReactNode) : nat :=
  match n with
  | JUndefined | JNull | JBool _ | JStr _ | JNum _ => 0%nat
  | JArr items => sum_list_with (title_count tid bound) items
  | JElem _ props children =>
      (Nat.b2n (has_id tid props) +
       sum_list_with (title_count tid bound) children)%nat
  | JProvider value children =>
      sum_list_with (title_count tid (String.eqb (titleId value) tid)) children
  | JBanner p => banner_count (title_count tid false) tid false p
  | JBannerTitle _ _ children =>
      (Nat.b2n bound + title_count tid bound children)%nat
  | JBannerDescription props children
  | JBannerPrimaryAction props children
  | JBannerSecondaryAction props children =>
      (Nat.b2n (has_id tid props) + title_count tid bound children)%nat
  | JBannerActions primaryAction secondaryAction =>
      (2 * (title_count tid bound primaryAction +
            title_count tid bound secondaryAction))%nat
  end.

(** The title sources of a Banner root whose identifier is [tid]: the
    [title] prop, the Titles nested in its content, and whatever else
    was given that [id]. *)
Definition title_sources (tid : string) (p : BannerProps ReactNode) : nat :=
  banner_count (title_count tid true) tid true p.

(** A bound on the fuel a render pass over a node needs. *)
Fixpoint weight (n : ReactNode) : nat :=
  match n with
  | JUndefined | JNull | JBool _ | JStr _ | JNum _ => 1%nat
  | JArr items => S (sum_list_with weight items)
  | JElem _ _ children => S (sum_list_with weight children)
  | JProvider _ children => S (sum_list_with weight children)
  | JBanner p =>
      (16 + weight (bp_children p) + weight (bp_description p) +
       weight (bp_icon p) + 2 * weight (bp_primaryAction p) +
       2 * weight (bp_secondaryAction p) + weight (bp_title p))%nat
  | JBannerTitle _ _ children
  | JBannerDescription _ children
  | JBannerPrimaryAction _ children
  | JBannerSecondaryAction _ children => (2 + weight children)%nat
  | JBannerActions primaryAction secondaryAction =>
      (4 + 2 * weight primaryAction + 2 * weight secondaryAction)%nat
  end.

(** What the render pass does to a node below a provider, as far as the
    identifier [mkId k0] is concerned: from any state that has already
    handed out [mkId k0], under any context value, the pass returns a
    tree, only adds to the scheduled effects (and adds none in a
    production build), and the tree has as many elements with that
    identifier as the node has sources of it. *)
Definition tracks (dev : bool) (k0 fuel : nat) (n : ReactNode) : Prop :=
  ∀ c st, (k0 < next_id st)%nat →
    ∃ doms st',
      render dev fuel (Some c) n st = Done (doms, st') ∧
      (next_id st ≤ next_id st')%nat ∧
      (∃ more : list Effect,
         effects st' = (effects st ++ more)%list ∧ (dev = false → more = [])) ∧
      count_ids (mkId k0) doms =
        title_count (mkId k0) (String.eqb (titleId c) (mkId k0)) n.

(** Two outcomes of a pass agree on everything but the effects
    scheduled. *)
Definition same_outcome {A} (a b : Outcome (A * RenderState)) : Prop :=
  match a, b with
  | Done (x, s), Done (y, t) => x = y ∧ next_id s = next_id t
  | Throw e1, Throw e2 => e1 = e2
  | OutOfFuel, OutOfFuel => True
  | _, _ => False
  end.

(** ** Sample roots *)

(** [<Banner title="Heads up" />] *)
Definition banner_with_title_prop : BannerProps ReactNode :=
  {| bp_children := JUndefined; bp_description := JUndefined;
     bp_icon := JUndefined; bp_onDismiss := None;
     bp_primaryAction := JUndefined; bp_secondaryAction := JUndefined;
     bp_title := JStr "Heads up"; bp_variant := None; bp_attrs := ∅ |}.

(** [<Banner><Banner.Title as="h3">Heads up</Banner.Title></Banner>] *)
Definition banner_with_nested_title : BannerProps ReactNode :=
  {| bp_children := JBannerTitle (Some h3) ∅ (JStr "Heads up");
     bp_description := JUndefined;
     bp_icon := JUndefined; bp_onDismiss := None;
     bp_primaryAction := JUndefined; bp_secondaryAction := JUndefined;
     bp_title := JUndefined; bp_variant := None; bp_attrs := ∅ |}.

(** [<Banner title="Heads up"><Banner.Title>Again</Banner.Title></Banner>] *)
Definition banner_with_both : BannerProps ReactNode :=
  {| bp_children := JBannerTitle None ∅ (JStr "Again");
     bp_description := JUndefined;
     bp_icon := JUndefined; bp_onDismiss := None;
     bp_primaryAction := JUndefined; bp_secondaryAction := JUndefined;
     bp_title := JStr "Heads up"; bp_variant := None; bp_attrs := ∅ |}.

(** [<Banner primaryAction={<Banner.Title>Heads up</Banner.Title>} />] *)
Definition banner_with_title_in_action : BannerProps ReactNode :=
  {| bp_children := JUndefined; bp_description := JUndefined;
     bp_icon := JUndefined; bp_onDismiss := None;
     bp_primaryAction := JBannerTitle None ∅ (JStr "Heads up");
     bp_secondaryAction := JUndefined;
     bp_title := JUndefined; bp_variant := None; bp_attrs := ∅ |}.

(** [<Banner title="Heads up" primaryAction={0} />] *)
Definition banner_with_zero_action : BannerProps ReactNode :=
  {| bp_children := JUndefined; bp_description := JUndefined;
     bp_icon := JUndefined; bp_onDismiss := None;
     bp_primaryAction := JNum 0; bp_secondaryAction := JUndefined;
     bp_title := JStr "Heads up"; bp_variant := None; bp_attrs := ∅ |}.

(** [<Banner description="Nothing to see" />] *)
Definition banner_without_title : BannerProps ReactNode :=
  {| bp_children := JUndefined; bp_description := JStr "Nothing to see";
     bp_icon := JUndefined; bp_onDismiss := None;
     bp_primaryAction := JUndefined; bp_secondaryAction := JUndefined;
     bp_title := JUndefined; bp_variant := Some warning; bp_attrs := ∅ |}.

(** ** Proof steps used more than once *)

(** Evaluate a selector on a closed attribute map. *)
Ltac eval_match s a b :=
  replace (matches_simple s a) with b by (vm_compute; reflexivity).

(** A key is none of the keys of a closed list. *)
Ltac notin :=
  repeat (apply not_elem_of_cons; split; [discriminate|]);
  apply not_elem_of_nil.

(** ** Further notions *)

(** No Banner root anywhere in a node. *)
Fixpoint banner_free (n : ReactNode) : bool :=
  match n with
  | JUndefined | JNull | JBool _ | JStr _ | JNum _ => true
  | JArr items => forallb banner_free items
  | JElem _ _ children => forallb banner_free children
  | JProvider _ children => forallb banner_free children
  | JBanner _ => false
  | JBannerTitle _ _ children
  | JBannerDescription _ children
  | JBannerPrimaryAction _ children
  | JBannerSecondaryAction _ children => banner_free children
  | JBannerActions primaryAction secondaryAction =>
      banner_free primaryAction && banner_free secondaryAction
  end.

(** No Banner root in anything a Banner root is handed. *)
Definition banner_free_props (p : BannerProps ReactNode) : bool :=
  banner_free (bp_children p) && banner_free (bp_description p) &&
  banner_free (bp_icon p) && banner_free (bp_primaryAction p) &&
  banner_free (bp_secondaryAction p) && banner_free (bp_title p).

(** An effect that does what the title check does: it returns, or
    throws [MissingAccessibleTitle]. *)
Definition title_check (eff : Effect) : Prop :=
  ∀ document,
    eff document = Done tt ∨ eff document = Throw MissingAccessibleTitle.

(** What a pass that returns may have done to the render state: it
    only moves the identifier supply forward, it only adds effects,
    each of them a title check and none in a production build, and it
    leaves the state alone when [free] (no Banner root was rendered). *)
Definition pass_ok (dev free : bool) (st st' : RenderState) : Prop :=
  (next_id st ≤ next_id st')%nat ∧
  (∃ more : list Effect,
     effects st' = (effects st ++ more)%list ∧
     (dev = false → more = []) ∧
     Forall title_check more) ∧
  (free = true → st' = st).

(** What a pass may come to: a result with the state as [pass_ok] has
    it, or [ContextMisuse], and that only where no provider is above. *)
Definition outcome_ok {A} (dev free : bool) (ctx : option BannerContextValue)
    (st : RenderState) (o : Outcome (A * RenderState)) : Prop :=
  match o with
  | Done (_, st') => pass_ok dev free st st'
  | Throw e => e = ContextMisuse ∧ ctx = None
  | OutOfFuel => True
  end.

(** One step of the cascade, given whether the rule applies. *)
Definition cascade_pick (applies : bool) (sp : nat) (d : Display)
    (best : option (nat * Display)) : option (nat * Display) :=
  if applies then
    match best with
    | Some (sp0, _) => if (sp0 <=? sp)%nat then Some (sp, d) else best
    | None => Some (sp, d)
    end
  else best.

(** Expose, rule by rule, whether each rule of the sheet applies. *)
Ltac expose_cascade :=
  unfold computed_display, StyledBanner_rules; cbn [foldl];
  repeat match goal with
    | |- context [cascade_step ?w ?anc ?attrs ?best ?r] =>
        change (cascade_step w anc attrs best r)
          with (cascade_pick
                  (media_holds w r && matches (selector r) anc attrs)
                  (specificity (selector r)) (display r) best)
    end;
  unfold media_holds, matches;
  cbn [media_min_width selector display specificity].

(** A key known to differ from each key of a closed list is none of
    them. *)
Ltac notin_hyps :=
  repeat (apply not_elem_of_cons; split; [done|]);
  apply not_elem_of_nil.
Lemma lookup_styled_attrs generated (props : Props) k :
  k ≠ "className" → k ≠ "as" → forwarded k = true →
  styled_attrs generated props !! k = props !! k.
Proof.
  intros Hc Ha Hf. unfold styled_attrs. rewrite lookup_insert_ne by done.
  destruct (props !! k) as [v|] eqn:Hk.
  - by apply map_lookup_filter_Some_2.
  - apply map_lookup_filter_None_2. by left.
Qed.


Lemma lookup_styled_attrs_className generated (props : Props) :
  styled_attrs generated props !! "className"
  = Some (PStr (styled_className generated (props !! "className"))).
Proof. apply lookup_insert_eq. Qed.

Lemma Banner_root_element (p : BannerProps ReactNode) titleId children :
  StyledBanner
    (jsx_props [Spread (omit Banner_keys (bp_attrs p));
                Attr "aria-labelledby" (PStr titleId);
                Attr "as" (PStr "section");
                Attr "data-variant"
                  (PStr (variant_name (default info (bp_variant p))));
                Attr "tabIndex" (PNum (-1))]) children
  = JElem (Host "section") (container_attrs p titleId) children.
Proof.
  unfold StyledBanner, styled, container_attrs.
  replace (jsx_props _ !! "as") with (Some (PStr "section")); [done|].
  unfold jsx_props. cbn [foldl jsx_attr].
  rewrite !lookup_insert_ne by done. by rewrite lookup_insert_eq.
Qed.

Lemma Banner_returns dev (p : BannerProps ReactNode) st :
  ∃ effs,
    Banner dev p st =
      Done (Banner_tree p (mkId (next_id st)),
            {| next_id := S (next_id st); effects := effects st ++ effs |}) ∧
    effs = (if dev
            then [λ document,
                   match document_getElementById (mkId (next_id st)) document
                   with
                   | None => Throw MissingAccessibleTitle
                   | Some _ => Done tt
                   end]
            else []).
Proof.
  unfold Banner, mbind, Render_bind, useId.
  destruct dev; cbn [useEffect mret Render_ret];
    rewrite Banner_root_element; eexists; (split; [|reflexivity]).
  - reflexivity.
  - by rewrite app_nil_r; destruct st.
Qed.

(** ** Props objects *)

Lemma lookup_omit_ne (keys : list string) (m : Props) k :
  k ∉ keys → omit keys m !! k = m !! k.
Proof.
  induction keys as [|k' keys IH]; intros Hk; [done|].
  apply not_elem_of_cons in Hk as [Hne Hk].
  cbn [omit foldr]. rewrite lookup_delete_ne by done. by apply IH.
Qed.

Lemma lookup_omit_elem (keys : list string) (m : Props) k :
  k ∈ keys → omit keys m !! k = None.
Proof.
  induction keys as [|k' keys IH]; intros Hk; [by apply elem_of_nil in Hk|].
  cbn [omit foldr]. destruct (decide (k' = k)) as [->|Hne].
  - apply lookup_delete_eq.
  - rewrite lookup_delete_ne by done. apply IH.
    apply elem_of_cons in Hk as [?|?]; [congruence|done].
Qed.

Lemma root_props_lookup (p : BannerProps ReactNode) titleId k :
  k ∉ ["aria-labelledby"; "as"; "data-variant"; "tabIndex"] →
  jsx_props [Spread (omit Banner_keys (bp_attrs p));
             Attr "aria-labelledby" (PStr titleId);
             Attr "as" (PStr "section");
             Attr "data-variant"
               (PStr (variant_name (default info (bp_variant p))));
             Attr "tabIndex" (PNum (-1))] !! k
  = omit Banner_keys (bp_attrs p) !! k.
Proof.
  intros Hk. unfold jsx_props. cbn [foldl jsx_attr].
  repeat (apply not_elem_of_cons in Hk as [? Hk]).
  rewrite !lookup_insert_ne by done.
  by rewrite lookup_union_l by apply lookup_empty.
Qed.

Lemma container_attrs_lookup (p : BannerProps ReactNode) titleId k :
  k ∉ ["aria-labelledby"; "as"; "className"; "data-variant"; "tabIndex"] →
  k ∉ Banner_keys →
  forwarded k = true →
  container_attrs p titleId !! k = bp_attrs p !! k.
Proof.
  intros Hk Hk' Hf. unfold container_attrs.
  pose proof Hk as Hn. repeat (apply not_elem_of_cons in Hn as [? Hn]).
  rewrite lookup_styled_attrs by done.
  rewrite root_props_lookup by notin_hyps.
  by apply lookup_omit_ne.
Qed.

(** ** The root: container attributes, icon, actions, dismiss control *)

(** C9: whatever pass-through attributes the root is given, its
    container carries [aria-labelledby] equal to the identifier
    generated by [useId], [data-variant] equal to the resolved variant
    and [tabIndex] equal to -1: the pass-through attributes are spread
    first and cannot override the three. *)
Theorem Banner_fixed_attributes dev (p : BannerProps ReactNode) st :
  ∃ attrs children st',
    Banner dev p st =
      Done (JProvider {| titleId := mkId (next_id st) |}
              [JElem (Host "section") attrs children], st') ∧
    attrs !! "aria-labelledby" = Some (PStr (mkId (next_id st))) ∧
    attrs !! "data-variant" =
      Some (PStr (variant_name (default info (bp_variant p)))) ∧
    attrs !! "tabIndex" = Some (PNum (-1)).
Proof.
  destruct (Banner_returns dev p st) as (effs & -> & _).
  do 3 eexists. split; [reflexivity|].
  unfold container_attrs.
  split_and!; rewrite lookup_styled_attrs by done;
    unfold jsx_props; cbn [foldl jsx_attr].
  - rewrite !lookup_insert_ne by done. apply lookup_insert_eq.
  - rewrite lookup_insert_ne by done. apply lookup_insert_eq.
  - apply lookup_insert_eq.
Qed.

(** C4: the icon box of the root holds the [icon] prop when one is
    given (a value other than [undefined] and [null]), whatever the
    variant, and otherwise the icon that [iconForVariant] maps the
    resolved variant to. *)
Theorem Banner_icon dev (p : BannerProps ReactNode) st :
  ∃ value attrs shown container dismiss st',
    Banner dev p st =
      Done (JProvider value
              [JElem (Host "section") attrs
                 [div "BannerIcon" [shown]; container; dismiss]], st') ∧
    shown = (if nullish (bp_icon p)
             then iconForVariant (default info (bp_variant p))
             else bp_icon p) ∧
    iconForVariant critical = icon_element "StopIcon" ∧
    iconForVariant info = icon_element "InfoIcon" ∧
    iconForVariant success = icon_element "CheckCircleIcon" ∧
    iconForVariant upsell = icon_element "InfoIcon" ∧
    iconForVariant warning = icon_element "AlertIcon".
Proof.
  destruct (Banner_returns dev p st) as (effs & -> & _).
  do 6 eexists. split; [reflexivity|]. by repeat split.
Qed.

(** C2: the third child of the container is the dismiss control when
    the variant is not [critical] and [onDismiss] is given, and [null]
    in every other case; the control calls [onDismiss] on a click. *)
Theorem Banner_dismiss_gate dev (p : BannerProps ReactNode) st :
  ∃ value attrs icon container dismiss st',
    Banner dev p st =
      Done (JProvider value
              [JElem (Host "section") attrs [icon; container; dismiss]], st') ∧
    (is_dismiss_control dismiss = true ↔
       default info (bp_variant p) ≠ critical ∧ is_Some (bp_onDismiss p)) ∧
    dismiss =
      match bp_onDismiss p with
      | Some onDismiss =>
          if bool_decide (default info (bp_variant p) = critical) then JNull
          else
            JElem (External "IconButton")
              (jsx_props [Attr "aria-label" (PStr "Dismiss banner");
                          Attr "onClick" (PFun onDismiss);
                          Attr "className" (PStr "BannerDismiss");
                          Attr "icon" (PComp "XIcon");
                          Attr "variant" (PStr "invisible")])
              []
      | None => JNull
      end.
Proof.
  destruct (Banner_returns dev p st) as (effs & -> & _).
  do 6 eexists. split; [reflexivity|].
  unfold dismiss_slot.
  destruct (bp_onDismiss p) as [h|], (default info (bp_variant p));
    (split; [|reflexivity]);
    rewrite ?bool_decide_eq_true_2, ?bool_decide_eq_false_2 by naive_solver;
    cbn [is_dismiss_control dismiss_button];
    (split; [intros H | intros [H1 H2]]);
    try discriminate; try (by destruct H2); try congruence;
    try (split; [done|by eexists]).
  all: vm_compute; reflexivity.
Qed.

(** C8, as the code has it: the root puts an actions region after the
    content exactly when [primaryAction || secondaryAction] is truthy
    (an action that is given but falsy, such as [0] or the empty
    string, brings no region); the region, when there is one, has
    exactly two arrangements, the first marked [data-hide-on-sm] and
    the second [data-hide-on-md]. *)
Theorem Banner_actions_region dev (p : BannerProps ReactNode) st :
  ∃ value attrs icon content region dismiss st',
    Banner dev p st =
      Done (JProvider value
              [JElem (Host "section") attrs
                 [icon; div "BannerContainer" [content; region]; dismiss]],
            st') ∧
    region =
      (if truthy (bp_primaryAction p) || truthy (bp_secondaryAction p)
       then JBannerActions (bp_primaryAction p) (bp_secondaryAction p)
       else JNull) ∧
    (∀ fuel ctx st0,
       render dev (S fuel) ctx
         (JBannerActions (bp_primaryAction p) (bp_secondaryAction p)) st0 =
       render dev fuel ctx
         (BannerActions (bp_primaryAction p) (bp_secondaryAction p)) st0) ∧
    ∃ sm sm_children md md_children,
      BannerActions (bp_primaryAction p) (bp_secondaryAction p) =
        div "BannerActions"
          [JElem (Host "div") sm sm_children;
           JElem (Host "div") md md_children] ∧
      sm !! "data-hide-on-sm" = Some (PStr "") ∧
      sm !! "data-hide-on-md" = None ∧
      md !! "data-hide-on-md" = Some (PStr "") ∧
      md !! "data-hide-on-sm" = None.
Proof.
  destruct (Banner_returns dev p st) as (effs & -> & _).
  do 7 eexists. split; [reflexivity|].
  split; [reflexivity|]. split; [reflexivity|].
  do 4 eexists. split; [reflexivity|].
  unfold jsx_props. cbn [foldl jsx_attr].
  split_and!.
  - apply lookup_insert_eq.
  - by rewrite !lookup_insert_ne by done.
  - apply lookup_insert_eq.
  - by rewrite !lookup_insert_ne by done.
Qed.

(** ** The actions region and its buttons *)

Lemma has_class_styled (attrs : Props) cn :
  attrs !! "className"
    = Some (PStr (styled_className StyledBanner_class cn)) →
  has_class StyledBanner_class attrs = true.
Proof.
  intros Hc. unfold has_class. rewrite Hc. apply bool_decide_eq_true.
  unfold styled_className, StyledBanner_class.
  destruct cn as [v|]; [|vm_compute; constructor].
  destruct (truthy_value v); [|vm_compute; constructor].
  cbn. constructor.
Qed.

Lemma container_is_root (p : BannerProps ReactNode) titleId :
  has_class StyledBanner_class (container_attrs p titleId) = true.
Proof.
  eapply has_class_styled. unfold container_attrs.
  apply lookup_styled_attrs_className.
Qed.

Lemma above_scoped s (anc higher : list Props) :
  above s anc = Some higher → root_scoped anc = false →
  root_scoped higher = false.
Proof.
  induction anc as [|a anc IH]; [done|].
  cbn [above root_scoped existsb].
  intros H [Ha Hs]%orb_false_iff.
  destruct (matches_simple s a); [by injection H as <-|by apply IH].
Qed.

Lemma computed_display_unscoped width (anc : list Props) (attrs : Props) :
  root_scoped anc = false →
  has_class StyledBanner_class attrs = false →
  computed_display width anc attrs = d_block.
Proof.
  intros Hs Hr.
  expose_cascade. rewrite Hs, Hr, !andb_false_r.
  destruct (above (ByClass "BannerActions") anc) as [higher|] eqn:Ha;
    [rewrite (above_scoped _ _ _ Ha Hs)|]; by rewrite !andb_false_r.
Qed.

Lemma computed_display_sm width (anc : list Props) :
  root_scoped anc = true →
  computed_display width
    (jsx_props [Attr "className" (PStr "BannerActions")] :: anc)
    (jsx_props [Attr "className" (PStr "BannerActionsContainer");
                Attr "data-hide-on-sm" (PStr "")])
  = if width <? 544 then d_none else d_flex.
Proof.
  intros Hs.
  set (outer := jsx_props [Attr "className" (PStr "BannerActions")]).
  set (a := jsx_props [Attr "className" (PStr "BannerActionsContainer");
                       Attr "data-hide-on-sm" (PStr "")]).
  expose_cascade. cbn [above].
  unfold root_scoped in *. cbn [existsb]. rewrite Hs.
  replace (has_class StyledBanner_class a) with false
    by (vm_compute; reflexivity).
  eval_match (ByClass "BannerActions") outer true.
  eval_match (ByClass "BannerIcon") a false.
  eval_match (ByClass "BannerContainer") a false.
  eval_match (ByClass "BannerContent") a false.
  eval_match (ByClass "BannerActionsContainer") a true.
  eval_match (ByClass "BannerDismiss") a false.
  eval_match (ByAttr "data-hide-on-sm") a true.
  eval_match (ByAttr "data-hide-on-md") a false.
  rewrite !orb_true_r. cbv beta iota. rewrite ?Hs.
  destruct (544 <=? width) eqn:Hle, (width <? 544) eqn:Hlt;
    try reflexivity; lia.
Qed.

Lemma computed_display_md width (anc : list Props) :
  root_scoped anc = true →
  computed_display width
    (jsx_props [Attr "className" (PStr "BannerActions")] :: anc)
    (jsx_props [Attr "className" (PStr "BannerActionsContainer");
                Attr "data-hide-on-md" (PStr "")])
  = if width <? 544 then d_flex else d_none.
Proof.
  intros Hs.
  set (outer := jsx_props [Attr "className" (PStr "BannerActions")]).
  set (a := jsx_props [Attr "className" (PStr "BannerActionsContainer");
                       Attr "data-hide-on-md" (PStr "")]).
  expose_cascade. cbn [above].
  unfold root_scoped in *. cbn [existsb]. rewrite Hs.
  replace (has_class StyledBanner_class a) with false
    by (vm_compute; reflexivity).
  eval_match (ByClass "BannerActions") outer true.
  eval_match (ByClass "BannerIcon") a false.
  eval_match (ByClass "BannerContainer") a false.
  eval_match (ByClass "BannerContent") a false.
  eval_match (ByClass "BannerActionsContainer") a true.
  eval_match (ByClass "BannerDismiss") a false.
  eval_match (ByAttr "data-hide-on-sm") a false.
  eval_match (ByAttr "data-hide-on-md") a true.
  rewrite !orb_true_r. cbv beta iota. rewrite ?Hs.
  destruct (544 <=? width) eqn:Hle, (width <? 544) eqn:Hlt;
    try reflexivity; lia.
Qed.

Lemma visible_arrangements_BannerActions (pa sa : ReactNode) (width : Z)
    (anc : list Props) :
  root_scoped anc = true →
  visible_arrangements width anc (BannerActions pa sa) =
    if width <? 544
    then [[pa ?? JNull; sa ?? JNull]]
    else [[sa ?? JNull; pa ?? JNull]].
Proof.
  intros Hs.
  unfold visible_arrangements, BannerActions, div. cbn [omap list_omap].
  rewrite computed_display_sm, computed_display_md by done.
  by destruct (width <? 544).
Qed.

Lemma visible_arrangements_unscoped (pa sa : ReactNode) (width : Z)
    (anc : list Props) :
  root_scoped anc = false →
  visible_arrangements width anc (BannerActions pa sa) =
    [[sa ?? JNull; pa ?? JNull]; [pa ?? JNull; sa ?? JNull]].
Proof.
  intros Hs.
  unfold visible_arrangements, BannerActions, div. cbn [omap list_omap].
  rewrite !computed_display_unscoped; [done|..];
    first [by vm_compute
          |unfold root_scoped in *; cbn [existsb];
           rewrite Hs; by vm_compute].
Qed.

(** C3, as the code has it: the actions region always holds both
    arrangements, (secondary, primary) in the box marked
    [data-hide-on-sm] and (primary, secondary) in the box marked
    [data-hide-on-md], whatever the width.  Below a Banner root (and
    the container of a root is one, with the region two levels down)
    the style sheet alone decides which one is displayed: below 544px
    the (primary, secondary) one, from 544px on the (secondary,
    primary) one.  Where no Banner root is above, no rule of the sheet
    applies and both are displayed. *)
Theorem BannerActions_arrangements (primaryAction secondaryAction : ReactNode)
    (width : Z) :
  ∃ outer sm md,
    BannerActions primaryAction secondaryAction =
      JElem (Host "div") outer
        [JElem (Host "div") sm
           [secondaryAction ?? JNull; primaryAction ?? JNull];
         JElem (Host "div") md
           [primaryAction ?? JNull; secondaryAction ?? JNull]] ∧
    (∀ anc, root_scoped anc = true →
       computed_display width (outer :: anc) sm =
         (if width <? 544 then d_none else d_flex) ∧
       computed_display width (outer :: anc) md =
         (if width <? 544 then d_flex else d_none) ∧
       visible_arrangements width anc
         (BannerActions primaryAction secondaryAction) =
         if width <? 544
         then [[primaryAction ?? JNull; secondaryAction ?? JNull]]
         else [[secondaryAction ?? JNull; primaryAction ?? JNull]]) ∧
    (∀ anc, root_scoped anc = false →
       visible_arrangements width anc
         (BannerActions primaryAction secondaryAction) =
         [[secondaryAction ?? JNull; primaryAction ?? JNull];
          [primaryAction ?? JNull; secondaryAction ?? JNull]]) ∧
    (∀ (p : BannerProps ReactNode) titleId,
       root_scoped [jsx_props [Attr "className" (PStr "BannerContainer")];
                    container_attrs p titleId] = true).
Proof.
  do 3 eexists. split; [reflexivity|]. split_and!.
  - intros anc Hs. split_and!.
    + by apply computed_display_sm.
    + by apply computed_display_md.
    + by apply visible_arrangements_BannerActions.
  - intros anc Hs. by apply visible_arrangements_unscoped.
  - intros p titleId. unfold root_scoped. cbn [existsb].
    by rewrite container_is_root, orb_true_r.
Qed.

Lemma action_attrs_lookup (props : Props) (cls v : string) k :
  k ∉ ["children"; "className"] →
  jsx_props [Attr "className" (PStr cls); Attr "variant" (PStr v);
             Spread (omit ["children"; "className"] props)] !! k
  = match props !! k with
    | Some x => Some x
    | None => (<["variant":=PStr v]> (<["className":=PStr cls]> ∅) : Props) !! k
    end.
Proof.
  intros Hk. unfold jsx_props. cbn [foldl jsx_attr].
  rewrite lookup_union, lookup_omit_ne by done.
  by destruct (props !! k), (_ !! k).
Qed.

Lemma action_attrs_className (props : Props) (cls v : string) :
  jsx_props [Attr "className" (PStr cls); Attr "variant" (PStr v);
             Spread (omit ["children"; "className"] props)] !! "className"
  = Some (PStr cls).
Proof.
  unfold jsx_props. cbn [foldl jsx_attr].
  rewrite lookup_union_r
    by (apply lookup_omit_elem; do 2 constructor).
  by rewrite lookup_insert_ne, lookup_insert_eq.
Qed.

(** C7, as the code has it: for every prop set without a [variant] key
    (the prop types of both wrappers omit it), the primary action is a
    [Button] with variant [default] and the secondary action a [Button]
    with variant [invisible]. *)
Theorem Banner_actions_fixed_variant (props : Props) (children : ReactNode) :
  props !! "variant" = None →
  ∃ primary secondary,
    BannerPrimaryAction props children =
      JElem (External "Button") primary [children] ∧
    primary !! "variant" = Some (PStr "default") ∧
    BannerSecondaryAction props children =
      JElem (External "Button") secondary [children] ∧
    secondary !! "variant" = Some (PStr "invisible").
Proof.
  intros Hv. do 2 eexists.
  split; [reflexivity|]. split; [|split; [reflexivity|]].
  - rewrite action_attrs_lookup, Hv by notin. apply lookup_insert_eq.
  - rewrite action_attrs_lookup, Hv by notin. apply lookup_insert_eq.
Qed.

Lemma Banner_actions_fixed_variant_witness :
  ∃ primary secondary,
    BannerPrimaryAction {["size" := PStr "small"]} (JStr "Save") =
      JElem (External "Button") primary [JStr "Save"] ∧
    primary !! "variant" = Some (PStr "default") ∧
    BannerSecondaryAction {["size" := PStr "small"]} (JStr "Save") =
      JElem (External "Button") secondary [JStr "Save"] ∧
    secondary !! "variant" = Some (PStr "invisible").
Proof.
  apply (Banner_actions_fixed_variant {["size" := PStr "small"]} (JStr "Save")).
  reflexivity.
Defined.

(** C7, as the claim has it, fails: a [variant] handed over at run time
    among the other props is spread after the fixed one and wins. *)
Lemma BannerPrimaryAction_variant_passed :
  ∃ attrs,
    BannerPrimaryAction {["variant" := PStr "danger"]} (JStr "Delete") =
      JElem (External "Button") attrs [JStr "Delete"] ∧
    attrs !! "variant" = Some (PStr "danger") ∧
    attrs !! "variant" ≠ Some (PStr "default").
Proof.
  eexists. split; [reflexivity|].
  rewrite action_attrs_lookup by notin.
  rewrite lookup_singleton_eq. split; [reflexivity|discriminate].
Qed.

(** C10: the secondary action is a [Button] whose class is
    [cx('BannerPrimaryAction', className)], the very class of the
    primary action: [BannerPrimaryAction] alone when the caller gives no
    class, followed by the caller's class when there is one. *)
Theorem BannerSecondaryAction_className (props : Props) (children : ReactNode) :
  ∃ secondary primary,
    BannerSecondaryAction props children =
      JElem (External "Button") secondary [children] ∧
    BannerPrimaryAction props children =
      JElem (External "Button") primary [children] ∧
    secondary !! "className" =
      Some (PStr (cx [Some (PStr "BannerPrimaryAction");
                      props !! "className"])) ∧
    secondary !! "className" = primary !! "className" ∧
    cx [Some (PStr "BannerPrimaryAction"); None] = "BannerPrimaryAction" ∧
    ∀ a c, cx [Some (PStr "BannerPrimaryAction"); Some (PStr (String a c))]
           = "BannerPrimaryAction " +:+ String a c.
Proof.
  do 2 eexists. split; [reflexivity|]. split; [reflexivity|].
  rewrite !action_attrs_className. by split_and!.
Qed.

(** ** Outside a Banner root *)

Lemma renders_fuel_pos dev fuel ctx n : renders dev fuel ctx n → ∃ f, fuel = S f.
Proof.
  intros H. destruct fuel as [|f]; [|by eexists].
  destruct (H initial_state) as (? & ? & ?). discriminate.
Qed.

Lemma renders_nullish_or dev fuel ctx n :
  renders dev fuel ctx n → renders dev fuel ctx (n ?? JNull).
Proof.
  intros H. unfold nullish_or. destruct (nullish n); [|done].
  destruct (renders_fuel_pos _ _ _ _ H) as [f ->].
  intros st. by do 2 eexists.
Qed.

Lemma render_elem dev fuel ctx ty props children st :
  render dev (S fuel) ctx (JElem ty props children) st =
    match mapM (render dev fuel ctx) children st with
    | Done (kids, st') => Done ([DElem ty props (concat kids)], st')
    | Throw e => Throw e
    | OutOfFuel => OutOfFuel
    end.
Proof. reflexivity. Qed.

Lemma mapM_cons {A B} (f : A → Render B) x l st :
  mapM f (x :: l) st =
    match f x st with
    | Done (y, st1) =>
        match mapM f l st1 with
        | Done (k, st2) => Done (y :: k, st2)
        | Throw e => Throw e
        | OutOfFuel => OutOfFuel
        end
    | Throw e => Throw e
    | OutOfFuel => OutOfFuel
    end.
Proof.
  cbn [mapM]. unfold mbind, Render_bind.
  destruct (f x st) as [[y st1]| |]; [|done..].
  by destruct (mapM f l st1) as [[k st2]| |].
Qed.

Lemma renders_elem dev fuel ctx ty props children :
  Forall (renders dev fuel ctx) children →
  renders dev (S fuel) ctx (JElem ty props children).
Proof.
  intros H st. rewrite render_elem.
  assert (∃ kids st', mapM (render dev fuel ctx) children st = Done (kids, st'))
    as (kids & st' & ->); [|by do 2 eexists].
  revert st. induction H as [|n l Hn _ IH]; intros st; [by do 2 eexists|].
  rewrite mapM_cons.
  destruct (Hn st) as (d & st1 & ->).
  destruct (IH st1) as (ds & st2 & ->). by do 2 eexists.
Qed.

(** C5, as the code has it: a Title rendered outside every Banner root
    throws [ContextMisuse] during the render; Description and Actions
    never read the context, and outside a Banner root they render
    whenever their content does. *)
Theorem outside_Banner_root dev fuel as_ props (title description : ReactNode)
    (primaryAction secondaryAction : ReactNode) :
  renders dev fuel BannerContext description →
  renders dev fuel BannerContext primaryAction →
  renders dev fuel BannerContext secondaryAction →
  (∀ st, render dev (S fuel) BannerContext (JBannerTitle as_ props title) st
         = Throw ContextMisuse) ∧
  renders dev (S (S fuel)) BannerContext
    (JBannerDescription props description) ∧
  renders dev (S (S (S fuel))) BannerContext
    (JBannerActions primaryAction secondaryAction).
Proof.
  intros Hd Hp Hs. split_and!.
  - reflexivity.
  - intros st. cbn [render].
    apply (renders_elem dev fuel BannerContext). by constructor.
  - intros st. cbn [render]. apply (renders_elem dev (S fuel) BannerContext).
    repeat constructor; apply renders_elem;
      repeat constructor; by apply renders_nullish_or.
Qed.

(** ** Identifiers in the rendered tree *)

Lemma count_ids_cons id d l :
  count_ids id (d :: l) = (count_id id d + count_ids id l)%nat.
Proof. reflexivity. Qed.

Lemma count_ids_app id l1 l2 :
  count_ids id (l1 ++ l2) = (count_ids id l1 + count_ids id l2)%nat.
Proof.
  induction l1 as [|d l1 IH]; [done|].
  cbn [app]. rewrite !count_ids_cons, IH. lia.
Qed.

Lemma count_id_elem id ty attrs kids :
  count_id id (DElem ty attrs kids)
  = (Nat.b2n (has_id id attrs) + count_ids id kids)%nat.
Proof.
  reflexivity.
Qed.

Lemma getElementById_none id d :
  count_id id d = 0%nat → getElementById id d = None.
Proof.
  revert d. fix IH 1. intros [s|ty attrs kids]; [done|].
  rewrite count_id_elem. cbn [getElementById].
  destruct (has_id id attrs); [done|]. cbn [Nat.b2n Nat.add].
  induction kids as [|k kids IHk]; [done|].
  rewrite count_ids_cons. intros H.
  rewrite (IH k) by lia. apply IHk. lia.
Qed.

Lemma document_getElementById_none id document :
  count_ids id document = 0%nat → document_getElementById id document = None.
Proof.
  induction document as [|d document IH]; [done|].
  rewrite count_ids_cons. intros H. cbn [document_getElementById].
  rewrite getElementById_none by lia. apply IH. lia.
Qed.

Lemma string_length_app (a b : string) :
  String.length (a +:+ b) = (String.length a + String.length b)%nat.
Proof. induction a as [|x a IH]; [done|]. simpl. by rewrite IH. Qed.

Lemma app_inj_suffix (a b s : string) : a +:+ s = b +:+ s → a = b.
Proof.
  revert b. induction a as [|x a IH]; intros [|y b] H.
  - done.
  - apply (f_equal String.length) in H.
    rewrite !string_length_app in H. simpl in H. lia.
  - apply (f_equal String.length) in H.
    rewrite !string_length_app in H. simpl in H. lia.
  - injection H as -> H. f_equal. by apply IH.
Qed.

Lemma mkId_inj n m : mkId n = mkId m → n = m.
Proof.
  unfold mkId. intros H. apply (inj (String.app ":r")) in H.
  apply app_inj_suffix in H. by apply (inj pretty) in H.
Qed.

Lemma mkId_eqb_ne n m : n ≠ m → String.eqb (mkId n) (mkId m) = false.
Proof.
  intros Hne. apply String.eqb_neq. intros H. by apply Hne, mkId_inj.
Qed.

(** ** Fuel *)

Lemma weight_pos n : (1 ≤ weight n)%nat.
Proof. destruct n; cbn [weight]; lia. Qed.

Lemma weight_nullish_or n : (weight (n ?? JNull) ≤ weight n)%nat.
Proof.
  unfold nullish_or. destruct (nullish n); [|done]. apply weight_pos.
Qed.

Lemma weight_elem_of (n : ReactNode) (l : list ReactNode) :
  n ∈ l → (weight n ≤ sum_list_with weight l)%nat.
Proof.
  induction 1 as [n l|n m l _ IH]; cbn [sum_list_with]; lia.
Qed.

Lemma weight_Banner_tree (p : BannerProps ReactNode) id :
  (weight (Banner_tree p id) < weight (JBanner p))%nat.
Proof.
  unfold Banner_tree, icon_slot, content_slot, actions_slot, dismiss_slot, div.
  cbn [weight sum_list_with].
  pose proof (weight_nullish_or (bp_icon p)) as Hi.
  assert (weight (bp_icon p ?? iconForVariant (default info (bp_variant p)))
          ≤ weight (bp_icon p))%nat as Hicon.
  { unfold nullish_or. destruct (nullish (bp_icon p)); [|done].
    pose proof (weight_pos (bp_icon p)).
    by destruct (default info (bp_variant p)). }
  pose proof (weight_pos (bp_title p)).
  pose proof (weight_pos (bp_description p)).
  pose proof (weight_pos (bp_primaryAction p)).
  pose proof (weight_pos (bp_secondaryAction p)).
  destruct (truthy (bp_title p)), (truthy (bp_description p)),
    (truthy (bp_primaryAction p) || truthy (bp_secondaryAction p)),
    (if bool_decide (default info (bp_variant p) ≠ critical)
     then bp_onDismiss p else None);
    cbn [weight sum_list_with dismiss_button]; lia.
Qed.

Lemma weight_BannerActions pa sa :
  (weight (BannerActions pa sa) < weight (JBannerActions pa sa))%nat.
Proof.
  unfold BannerActions, div. cbn [weight sum_list_with].
  pose proof (weight_nullish_or pa). pose proof (weight_nullish_or sa). lia.
Qed.

(** ** The render pass, case by case *)

Lemma render_arr dev fuel ctx items st :
  render dev (S fuel) ctx (JArr items) st =
    match mapM (render dev fuel ctx) items st with
    | Done (kids, st') => Done (concat kids, st')
    | Throw e => Throw e
    | OutOfFuel => OutOfFuel
    end.
Proof. reflexivity. Qed.

Lemma render_provider dev fuel ctx value children st :
  render dev (S fuel) ctx (JProvider value children) st =
    match mapM (render dev fuel (Some value)) children st with
    | Done (kids, st') => Done (concat kids, st')
    | Throw e => Throw e
    | OutOfFuel => OutOfFuel
    end.
Proof. reflexivity. Qed.

Lemma render_Banner dev fuel ctx p st :
  render dev (S fuel) ctx (JBanner p) st =
    match Banner dev p st with
    | Done (tree, st') => render dev fuel ctx tree st'
    | Throw e => Throw e
    | OutOfFuel => OutOfFuel
    end.
Proof. reflexivity. Qed.

Lemma render_BannerTitle dev fuel c as_ props children st :
  render dev (S fuel) (Some c) (JBannerTitle as_ props children) st =
    render dev fuel (Some c)
      (JElem (Host (heading_tag (default h2 as_)))
         (jsx_props [Spread (omit ["as"; "className"; "children"] props);
                     Attr "id" (PStr (titleId c));
                     Attr "className"
                       (PStr (cx [Some (PStr "BannerTitle");
                                  props !! "className"]))])
         [children]) st.
Proof. reflexivity. Qed.

(** ** Which elements the components give an [id] *)

Lemma has_id_ext id (a b : Props) :
  a !! "id" = b !! "id" → has_id id a = has_id id b.
Proof. unfold has_id. by intros ->. Qed.

Lemma has_id_none id (a : Props) : a !! "id" = None → has_id id a = false.
Proof. unfold has_id. by intros ->. Qed.

Lemma has_id_div id className : 
  has_id id (jsx_props [Attr "className" (PStr className)]) = false.
Proof.
  apply has_id_none. unfold jsx_props. cbn [foldl jsx_attr].
  by rewrite lookup_insert_ne.
Qed.

Lemma has_id_arrangement id marker :
  marker ≠ "id" →
  has_id id (jsx_props [Attr "className" (PStr "BannerActionsContainer");
                        Attr marker (PStr "")]) = false.
Proof.
  intros H. apply has_id_none. unfold jsx_props. cbn [foldl jsx_attr].
  by rewrite !lookup_insert_ne.
Qed.

Lemma has_id_container id (p : BannerProps ReactNode) titleId :
  has_id id (container_attrs p titleId) = has_id id (bp_attrs p).
Proof. apply has_id_ext, container_attrs_lookup; [notin|notin|done]. Qed.

Lemma has_id_description id (props : Props) cls :
  has_id id (jsx_props [Spread (omit ["children"; "className"] props);
                        Attr "className" (PStr cls)])
  = has_id id props.
Proof.
  apply has_id_ext. unfold jsx_props. cbn [foldl jsx_attr].
  rewrite lookup_insert_ne by done.
  rewrite lookup_union_l by apply lookup_empty.
  apply lookup_omit_ne; notin.
Qed.

Lemma has_id_title id (rest : Props) tid cls :
  has_id id (jsx_props [Spread rest; Attr "id" (PStr tid);
                        Attr "className" (PStr cls)])
  = String.eqb tid id.
Proof.
  unfold has_id, jsx_props. cbn [foldl jsx_attr].
  by rewrite lookup_insert_ne, lookup_insert_eq.
Qed.

Lemma has_id_action id (props : Props) cls v :
  has_id id (jsx_props [Attr "className" (PStr cls); Attr "variant" (PStr v);
                        Spread (omit ["children"; "className"] props)])
  = has_id id props.
Proof.
  apply has_id_ext. rewrite action_attrs_lookup by notin.
  destruct (props !! "id"); [done|]. by rewrite !lookup_insert_ne.
Qed.

Lemma title_count_dismiss tid b (o : option nat) :
  title_count tid b
    match o with Some h => dismiss_button h | None => JNull end = 0%nat.
Proof.
  destruct o as [h|]; [|done]. unfold dismiss_button.
  cbn [title_count sum_list_with]. rewrite has_id_none; [done|].
  unfold jsx_props. cbn [foldl jsx_attr]. by rewrite !lookup_insert_ne.
Qed.

(** ** The sources of an identifier in what the components return *)

Lemma title_count_nullish_or tid b n :
  title_count tid b (n ?? JNull) = title_count tid b n.
Proof. unfold nullish_or. by destruct n. Qed.

Lemma title_count_BannerDescription tid b props children :
  title_count tid b (BannerDescription props children)
  = title_count tid b (JBannerDescription props children).
Proof.
  unfold BannerDescription. cbn [title_count sum_list_with].
  rewrite has_id_description. lia.
Qed.

Lemma title_count_BannerPrimaryAction tid b props children :
  title_count tid b (BannerPrimaryAction props children)
  = title_count tid b (JBannerPrimaryAction props children).
Proof.
  unfold BannerPrimaryAction. cbn [title_count sum_list_with].
  rewrite has_id_action. lia.
Qed.

Lemma title_count_BannerSecondaryAction tid b props children :
  title_count tid b (BannerSecondaryAction props children)
  = title_count tid b (JBannerSecondaryAction props children).
Proof.
  unfold BannerSecondaryAction. cbn [title_count sum_list_with].
  rewrite has_id_action. lia.
Qed.

Lemma title_count_BannerActions tid b pa sa :
  title_count tid b (BannerActions pa sa)
  = title_count tid b (JBannerActions pa sa).
Proof.
  unfold BannerActions, div. cbn [title_count sum_list_with].
  rewrite has_id_div, !has_id_arrangement by done.
  rewrite !title_count_nullish_or. cbn [Nat.b2n]. lia.
Qed.

Lemma title_count_icon tid b (p : BannerProps ReactNode) :
  title_count tid b (bp_icon p ?? iconForVariant (default info (bp_variant p)))
  = title_count tid b (bp_icon p).
Proof.
  unfold nullish_or. destruct (bp_icon p) eqn:Hi; cbn [nullish]; try done;
    by destruct (default info (bp_variant p)).
Qed.

Lemma title_count_Banner_tree tid b (p : BannerProps ReactNode) id :
  title_count tid b (Banner_tree p id)
  = banner_count (title_count tid (String.eqb id tid)) tid
      (String.eqb id tid) p.
Proof.
  unfold Banner_tree, banner_count, icon_slot, content_slot, actions_slot,
    dismiss_slot, div.
  cbn [title_count sum_list_with titleId].
  rewrite has_id_container, !has_id_div, title_count_icon.
  set (bound := String.eqb id tid).
  rewrite title_count_dismiss.
  destruct (truthy (bp_title p)), (truthy (bp_description p)),
    (truthy (bp_primaryAction p) || truthy (bp_secondaryAction p));
    cbn [title_count sum_list_with Nat.b2n];
    rewrite ?(has_id_none tid ∅) by apply lookup_empty;
    cbn [Nat.b2n]; lia.
Qed.

(** ** The render pass follows the sources *)

Lemma tracks_mapM dev k0 fuel (items : list ReactNode) :
  Forall (tracks dev k0 fuel) items →
  ∀ c st, (k0 < next_id st)%nat →
    ∃ kids st',
      mapM (render dev fuel (Some c)) items st = Done (kids, st') ∧
      (next_id st ≤ next_id st')%nat ∧
      (∃ more : list Effect,
         effects st' = (effects st ++ more)%list ∧
         (dev = false → more = [])) ∧
      count_ids (mkId k0) (concat kids) =
        sum_list_with
          (title_count (mkId k0) (String.eqb (titleId c) (mkId k0))) items.
Proof.
  induction 1 as [|n items Hn _ IH]; intros c st Hk.
  - exists [], st. split_and!; [done|lia| |done].
    exists []. by rewrite app_nil_r.
  - rewrite mapM_cons.
    destruct (Hn c st Hk) as (d & st1 & -> & Hk1 & (m1 & He1 & Hp1) & Hc1).
    destruct (IH c st1 ltac:(lia))
      as (ds & st2 & -> & Hk2 & (m2 & He2 & Hp2) & Hc2).
    exists (d :: ds), st2. split_and!; [done|lia| |].
    + exists (m1 ++ m2)%list. split.
      * by rewrite He2, He1, app_assoc.
      * intros Hd. by rewrite Hp1, Hp2.
    + cbn [concat sum_list_with]. rewrite count_ids_app. lia.
Qed.

Lemma tracks_expand dev k0 fuel (n e : ReactNode) :
  (∀ c st, render dev (S fuel) (Some c) n st = render dev fuel (Some c) e st) →
  (∀ b, title_count (mkId k0) b e = title_count (mkId k0) b n) →
  tracks dev k0 fuel e → tracks dev k0 (S fuel) n.
Proof.
  intros Hr Hc He c st Hk. rewrite Hr, <-Hc. by apply He.
Qed.

Lemma render_tracks dev k0 fuel n :
  (weight n ≤ fuel)%nat → tracks dev k0 fuel n.
Proof.
  revert n. induction fuel as [|fuel IH]; intros n Hw.
  { pose proof (weight_pos n). lia. }
  assert (∀ l : list ReactNode,
            (sum_list_with weight l ≤ fuel)%nat →
            Forall (tracks dev k0 fuel) l) as Hl.
  { intros l Hs. apply Forall_forall. intros x Hx. apply IH.
    pose proof (weight_elem_of x l Hx). lia. }
  destruct n as [| | | | |items|ty props children|value children|p
                 |as_ props children|props children|pa sa
                 |props children|props children]; cbn [weight] in Hw.
  1-5: intros c st Hk; eexists _, st;
       (split_and!; [reflexivity|lia| |reflexivity]);
       exists []; by rewrite app_nil_r.
  - intros c st Hk. rewrite render_arr.
    destruct (tracks_mapM dev k0 fuel items (Hl items ltac:(lia)) c st Hk)
      as (kids & st' & -> & ? & ? & ?).
    by exists (concat kids), st'.
  - intros c st Hk. rewrite render_elem.
    destruct (tracks_mapM dev k0 fuel children (Hl children ltac:(lia)) c st Hk)
      as (kids & st' & -> & ? & ? & Hc).
    eexists _, st'. split_and!; [reflexivity|done..|].
    rewrite count_ids_cons, count_id_elem. cbn [count_ids foldr title_count].
    rewrite Hc. lia.
  - intros c st Hk. rewrite render_provider.
    destruct (tracks_mapM dev k0 fuel children (Hl children ltac:(lia)) value st Hk)
      as (kids & st' & -> & ? & ? & ?).
    by exists (concat kids), st'.
  - intros c st Hk. rewrite render_Banner.
    destruct (Banner_returns dev p st) as (effs & -> & Heffs).
    pose proof (weight_Banner_tree p (mkId (next_id st))) as Hwt.
    cbn [weight] in Hwt.
    destruct (IH (Banner_tree p (mkId (next_id st))) ltac:(lia) c
                {| next_id := S (next_id st);
                   effects := (effects st ++ effs)%list |} ltac:(cbn; lia))
      as (doms & st' & -> & Hk' & (more & He & Hp) & Hc).
    cbn [next_id effects] in *.
    exists doms, st'. split_and!; [done|lia| |].
    + exists (effs ++ more)%list. split; [by rewrite He, app_assoc|].
      intros ->. by rewrite Heffs, Hp.
    + rewrite Hc, title_count_Banner_tree.
      rewrite mkId_eqb_ne by lia. reflexivity.
  - intros c st Hk. rewrite render_BannerTitle.
    match goal with
    | |- context [render dev fuel (Some c) ?e st] =>
        destruct (IH e ltac:(cbn [weight sum_list_with]; lia) c st Hk)
          as (doms & st' & -> & ? & ? & Hc)
    end.
    exists doms, st'. split_and!; [done..|].
    rewrite Hc. cbn [title_count sum_list_with]. rewrite has_id_title. lia.
  - apply (tracks_expand _ _ _ _ (BannerDescription props children));
      [reflexivity|intros; apply title_count_BannerDescription|].
    apply IH. cbn [BannerDescription weight sum_list_with]. lia.
  - apply (tracks_expand _ _ _ _ (BannerActions pa sa));
      [reflexivity|intros; apply title_count_BannerActions|].
    apply IH. pose proof (weight_BannerActions pa sa) as H.
    cbn [weight] in H. lia.
  - apply (tracks_expand _ _ _ _ (BannerPrimaryAction props children));
      [reflexivity|intros; apply title_count_BannerPrimaryAction|].
    apply IH. cbn [BannerPrimaryAction weight sum_list_with]. lia.
  - apply (tracks_expand _ _ _ _ (BannerSecondaryAction props children));
      [reflexivity|intros; apply title_count_BannerSecondaryAction|].
    apply IH. cbn [BannerSecondaryAction weight sum_list_with]. lia.
Qed.

(** ** The Banner root *)

Lemma render_Banner_tree_shape dev fuel ctx (p : BannerProps ReactNode) id
    st doms st' :
  render dev fuel ctx (Banner_tree p id) st = Done (doms, st') →
  ∃ kids, doms = [DElem (Host "section") (container_attrs p id) kids].
Proof.
  destruct fuel as [|[|fuel]]; [done..|]. unfold Banner_tree.
  rewrite render_provider, mapM_cons, render_elem.
  match goal with
  | |- context [mapM ?f ?l st] =>
      destruct (mapM f l st) as [[kids st1]| |]; [|done..]
  end.
  cbn [mapM mret Render_ret]. intros [= <- <-]. by eexists.
Qed.

Lemma render_Banner_tree_ctx dev fuel ctx1 ctx2 (p : BannerProps ReactNode)
    id st :
  render dev fuel ctx1 (Banner_tree p id) st
  = render dev fuel ctx2 (Banner_tree p id) st.
Proof. by destruct fuel. Qed.

(** What rendering a Banner root comes to: one [section], with as many
    elements carrying the generated identifier as the props have title
    sources; in a development build the title check is scheduled, in a
    production build nothing is. *)
Lemma Banner_root_renders dev fuel ctx (p : BannerProps ReactNode) st :
  (weight (JBanner p) ≤ fuel)%nat →
  ∃ kids st' (more : list Effect),
    render dev fuel ctx (JBanner p) st =
      Done ([DElem (Host "section")
               (container_attrs p (mkId (next_id st))) kids], st') ∧
    effects st' =
      (effects st ++
       (if dev
        then [λ document,
               match document_getElementById (mkId (next_id st)) document with
               | None => Throw MissingAccessibleTitle
               | Some _ => Done tt
               end]
        else []) ++ more)%list ∧
    (dev = false → more = []) ∧
    count_ids (mkId (next_id st))
      [DElem (Host "section") (container_attrs p (mkId (next_id st))) kids]
    = title_sources (mkId (next_id st)) p.
Proof.
  intros Hw. destruct fuel as [|fuel]; [cbn [weight] in Hw; lia|].
  rewrite render_Banner.
  destruct (Banner_returns dev p st) as (effs & -> & Heffs).
  rewrite (render_Banner_tree_ctx dev fuel ctx
             (Some {| titleId := mkId (next_id st) |})).
  pose proof (weight_Banner_tree p (mkId (next_id st))) as Hwt.
  destruct (render_tracks dev (next_id st) fuel
              (Banner_tree p (mkId (next_id st))) ltac:(lia)
              {| titleId := mkId (next_id st) |}
              {| next_id := S (next_id st);
                 effects := (effects st ++ effs)%list |} ltac:(cbn; lia))
    as (doms & st' & Hr & _ & (more & He & Hp) & Hc).
  destruct (render_Banner_tree_shape _ _ _ _ _ _ _ _ Hr) as [kids ->].
  rewrite Hr. exists kids, st', more. split_and!; [done| |done|].
  - rewrite He, Heffs. cbn [effects]. by rewrite app_assoc.
  - rewrite Hc, title_count_Banner_tree. cbn [titleId].
    by rewrite String.eqb_refl.
Qed.

(** ** The build flag and the rendered tree *)

Lemma same_outcome_mapM {A B} (f g : A → Render B) (l : list A) :
  (∀ x st1 st2, next_id st1 = next_id st2 →
     same_outcome (f x st1) (g x st2)) →
  ∀ st1 st2, next_id st1 = next_id st2 →
    same_outcome (mapM f l st1) (mapM g l st2).
Proof.
  intros Hfg. induction l as [|x l IH]; intros st1 st2 Hst; [done|].
  rewrite !mapM_cons. specialize (Hfg x st1 st2 Hst).
  destruct (f x st1) as [[y1 s1]| |], (g x st2) as [[y2 s2]| |]; try done.
  destruct Hfg as [-> Hs]. specialize (IH s1 s2 Hs).
  destruct (mapM f l s1) as [[k1 t1]| |], (mapM g l s2) as [[k2 t2]| |];
    try done.
  destruct IH as [-> ?]. done.
Qed.

Lemma same_outcome_concat (a b : Outcome (list (list Dom) * RenderState)) :
  same_outcome a b →
  same_outcome
    match a with
    | Done (kids, st') => Done (concat kids, st')
    | Throw e => Throw e
    | OutOfFuel => OutOfFuel
    end
    match b with
    | Done (kids, st') => Done (concat kids, st')
    | Throw e => Throw e
    | OutOfFuel => OutOfFuel
    end.
Proof.
  destruct a as [[k1 s1]| |], b as [[k2 s2]| |]; try done.
  by intros [-> ?].
Qed.

(** The build flag never changes the tree a pass returns. *)
Lemma render_build_irrelevant fuel ctx n st1 st2 :
  next_id st1 = next_id st2 →
  same_outcome (render true fuel ctx n st1) (render false fuel ctx n st2).
Proof.
  revert ctx n st1 st2. induction fuel as [|fuel IH]; intros ctx n st1 st2 Hst;
    [done|].
  destruct n as [| | | | |items|ty props children|value children|p
                 |as_ props children|props children|pa sa
                 |props children|props children].
  1-5: done.
  - rewrite !render_arr. apply same_outcome_concat.
    apply same_outcome_mapM; [|done]. intros; by apply IH.
  - rewrite !render_elem.
    pose proof (same_outcome_mapM (render true fuel ctx)
                  (render false fuel ctx) children
                  ltac:(intros; by apply IH) st1 st2 Hst) as H.
    destruct (mapM (render true fuel ctx) children st1) as [[k1 s1]| |],
      (mapM (render false fuel ctx) children st2) as [[k2 s2]| |]; try done.
    by destruct H as [-> ?].
  - rewrite !render_provider. apply same_outcome_concat.
    apply same_outcome_mapM; [|done]. intros; by apply IH.
  - rewrite !render_Banner.
    destruct (Banner_returns true p st1) as (e1 & -> & _).
    destruct (Banner_returns false p st2) as (e2 & -> & _).
    rewrite Hst. by apply IH.
  - destruct ctx as [c|]; [|done]. rewrite !render_BannerTitle. by apply IH.
  - by apply IH.
  - by apply IH.
  - by apply IH.
  - by apply IH.
Qed.

(** C1, as the code has it: when the title of a Banner root has exactly
    one source, the root renders to a [section] in which exactly one
    element has the generated identifier, and the [aria-labelledby] of
    the [section] is that identifier.  The sources are counted by
    [title_sources]: one for a truthy [title] prop, one for each place
    a Title reading the context of this root is rendered (a Title
    inside [primaryAction] or [secondaryAction] is rendered in both
    arrangements, and counts twice), and one for each element that was
    given the identifier by hand. *)
Theorem Banner_single_title dev fuel ctx (p : BannerProps ReactNode) st :
  (weight (JBanner p) ≤ fuel)%nat →
  title_sources (mkId (next_id st)) p = 1%nat →
  ∃ attrs kids st',
    render dev fuel ctx (JBanner p) st =
      Done ([DElem (Host "section") attrs kids], st') ∧
    attrs !! "aria-labelledby" = Some (PStr (mkId (next_id st))) ∧
    count_ids (mkId (next_id st)) [DElem (Host "section") attrs kids] = 1%nat.
Proof.
  intros Hw Hs.
  destruct (Banner_root_renders dev fuel ctx p st Hw)
    as (kids & st' & more & -> & _ & _ & Hc).
  do 3 eexists. split_and!; [reflexivity| |by rewrite Hc].
  unfold container_attrs. rewrite lookup_styled_attrs by done.
  unfold jsx_props. cbn [foldl jsx_attr].
  rewrite !lookup_insert_ne by done. apply lookup_insert_eq.
Qed.

(** C6: a Banner root with no title source (no truthy [title] prop, no
    Title nested in its content) renders in both builds to the same
    document; mounted in a development build, the effect run after the
    commit throws [MissingAccessibleTitle]; mounted in a production
    build, nothing is thrown. *)
Theorem Banner_missing_title fuel (p : BannerProps ReactNode) :
  (weight (JBanner p) ≤ fuel)%nat →
  title_sources (mkId 0) p = 0%nat →
  ∃ document st_dev st_prod,
    render true fuel None (JBanner p) initial_state = Done (document, st_dev) ∧
    render false fuel None (JBanner p) initial_state
      = Done (document, st_prod) ∧
    mount true fuel (JBanner p) = Throw MissingAccessibleTitle ∧
    mount false fuel (JBanner p) = Done document.
Proof.
  intros Hw Hs.
  destruct (Banner_root_renders true fuel None p initial_state Hw)
    as (kids & st1 & more1 & Hr1 & He1 & _ & Hc1).
  destruct (Banner_root_renders false fuel None p initial_state Hw)
    as (kids2 & st2 & more2 & Hr2 & He2 & Hp2 & _).
  pose proof (render_build_irrelevant fuel None (JBanner p)
                initial_state initial_state eq_refl) as Hsame.
  rewrite Hr1, Hr2 in Hsame. destruct Hsame as [Hdoc _].
  rewrite <-Hdoc in Hr2. cbn [initial_state next_id effects] in *.
  eexists _, st1, st2. split_and!; [exact Hr1|exact Hr2| |].
  - unfold mount, BannerContext. rewrite Hr1, He1. cbn [app run_effects].
    by rewrite document_getElementById_none by (by rewrite Hc1).
  - unfold mount, BannerContext. rewrite Hr2, He2, (Hp2 eq_refl). reflexivity.
Qed.


(** ** What the sub-components forward *)

Lemma title_attrs_lookup (props : Props) (tid cls : string) k :
  k ∉ ["as"; "className"; "children"; "id"] →
  jsx_props [Spread (omit ["as"; "className"; "children"] props);
             Attr "id" (PStr tid); Attr "className" (PStr cls)] !! k
  = props !! k.
Proof.
  intros Hk. unfold jsx_props. cbn [foldl jsx_attr].
  repeat (apply not_elem_of_cons in Hk as [? Hk]).
  rewrite !lookup_insert_ne by done.
  rewrite lookup_union_l by apply lookup_empty.
  apply lookup_omit_ne. notin_hyps.
Qed.

Lemma lookup_spread_omitted (keys : list string) (props : Props) k :
  k ∈ keys → (omit keys props ∪ ∅ : Props) !! k = None.
Proof.
  intros Hk. rewrite lookup_union_l by apply lookup_empty.
  by apply lookup_omit_elem.
Qed.

(** X1: inside a Banner root a Title returns a heading, [h2] unless
    [as] names another level, whose [id] is the identifier of the
    context whatever [id] the caller passed; its class is
    [cx('BannerTitle', className)], every other prop is forwarded
    unchanged, and the render state is left as it was. *)
Theorem BannerTitle_in_root (c : BannerContextValue) as_ (props : Props)
    (children : ReactNode) st :
  ∃ attrs,
    BannerTitle (Some c) as_ props children st =
      Done (JElem (Host (heading_tag (default h2 as_))) attrs [children], st) ∧
    attrs !! "id" = Some (PStr (titleId c)) ∧
    attrs !! "className" =
      Some (PStr (cx [Some (PStr "BannerTitle"); props !! "className"])) ∧
    attrs !! "as" = None ∧
    attrs !! "children" = None ∧
    ∀ k, k ∉ ["as"; "className"; "children"; "id"] → attrs !! k = props !! k.
Proof.
  eexists. split; [reflexivity|]. split_and!.
  - unfold jsx_props. cbn [foldl jsx_attr].
    by rewrite lookup_insert_ne, lookup_insert_eq.
  - unfold jsx_props. cbn [foldl jsx_attr]. apply lookup_insert_eq.
  - unfold jsx_props. cbn [foldl jsx_attr].
    rewrite !lookup_insert_ne by done.
    apply lookup_spread_omitted. constructor.
  - unfold jsx_props. cbn [foldl jsx_attr].
    rewrite !lookup_insert_ne by done.
    apply lookup_spread_omitted. do 3 constructor.
  - intros k Hk. by apply title_attrs_lookup.
Qed.

(** X2: a Description returns a [div] whose class is
    [cx('BannerDescription', className)]; every prop but [className]
    and [children] is forwarded to the [div] unchanged, an [id]
    included. *)
Theorem BannerDescription_forwards (props : Props) (children : ReactNode) :
  ∃ attrs,
    BannerDescription props children = JElem (Host "div") attrs [children] ∧
    attrs !! "className" =
      Some (PStr (cx [Some (PStr "BannerDescription");
                      props !! "className"])) ∧
    attrs !! "children" = None ∧
    ∀ k, k ∉ ["children"; "className"] → attrs !! k = props !! k.
Proof.
  eexists. split; [reflexivity|]. unfold jsx_props. cbn [foldl jsx_attr].
  split_and!.
  - apply lookup_insert_eq.
  - rewrite lookup_insert_ne by done. apply lookup_spread_omitted. constructor.
  - intros k Hk. pose proof Hk as Hk'.
    repeat (apply not_elem_of_cons in Hk' as [? Hk']).
    rewrite lookup_insert_ne by done.
    rewrite lookup_union_l by apply lookup_empty.
    by apply lookup_omit_ne.
Qed.

(** X3: both action wrappers hand every prop the caller passes, but
    [className] and [children], to the [Button] unchanged ([onClick],
    [size], [disabled] and the like), and the content as its only
    child. *)
Theorem Banner_actions_forward (props : Props) (children : ReactNode) :
  ∃ primary secondary,
    BannerPrimaryAction props children =
      JElem (External "Button") primary [children] ∧
    BannerSecondaryAction props children =
      JElem (External "Button") secondary [children] ∧
    ∀ k v, k ∉ ["children"; "className"] → props !! k = Some v →
           primary !! k = Some v ∧ secondary !! k = Some v.
Proof.
  do 2 eexists. split; [reflexivity|]. split; [reflexivity|].
  intros k v Hk Hv. by rewrite !action_attrs_lookup, Hv.
Qed.


(** ** The classes of the sub-components *)

Lemma cx_shape (base : string) (cn : option PropValue) :
  String.eqb base "" = false →
  cx [Some (PStr base); cn] = base ∨
  ∃ x, cx [Some (PStr base); cn] = (base +:+ " ") +:+ x.
Proof.
  intros Hb. unfold cx. cbn [foldl].
  assert (cx_step "" (Some (PStr base)) = base) as ->.
  { unfold cx_step. cbn [truthy_value toVal]. by rewrite Hb. }
  unfold cx_step. rewrite Hb.
  destruct cn as [v|]; [|by left].
  destruct (truthy_value v); [|by left].
  destruct (String.eqb (toVal v) ""); [by left|]. right. by eexists.
Qed.

Lemma has_class_of_className (base : string) (attrs : Props) cn :
  String.eqb base "" = false →
  base ∈ String.words base →
  (∀ x, base ∈ String.words ((base +:+ " ") +:+ x)) →
  attrs !! "className" = Some (PStr (cx [Some (PStr base); cn])) →
  has_class base attrs = true.
Proof.
  intros Hb H1 H2 Hc. unfold has_class. rewrite Hc.
  apply bool_decide_eq_true.
  destruct (cx_shape base cn Hb) as [->|[x ->]]; [done|apply H2].
Qed.

(** X5: whatever [className] the caller passes, the heading of a Title
    keeps the class [BannerTitle], the [div] of a Description the class
    [BannerDescription], and the [Button] of either action wrapper the
    class [BannerPrimaryAction]: the caller's classes are added after
    the component's own, never in its place. *)
Theorem sub_components_keep_class (c : BannerContextValue) as_ (props : Props)
    (children : ReactNode) st :
  (∃ tag attrs,
     BannerTitle (Some c) as_ props children st =
       Done (JElem tag attrs [children], st) ∧
     has_class "BannerTitle" attrs = true) ∧
  (∃ attrs,
     BannerDescription props children = JElem (Host "div") attrs [children] ∧
     has_class "BannerDescription" attrs = true) ∧
  (∃ attrs,
     BannerPrimaryAction props children =
       JElem (External "Button") attrs [children] ∧
     has_class "BannerPrimaryAction" attrs = true) ∧
  (∃ attrs,
     BannerSecondaryAction props children =
       JElem (External "Button") attrs [children] ∧
     has_class "BannerPrimaryAction" attrs = true).
Proof.
  split_and!.
  - do 2 eexists. split; [reflexivity|].
    apply (has_class_of_className "BannerTitle" _ (props !! "className")
             eq_refl).
    + vm_compute. constructor.
    + intros x. cbn. constructor.
    + unfold jsx_props. cbn [foldl jsx_attr]. apply lookup_insert_eq.
  - eexists. split; [reflexivity|].
    apply (has_class_of_className "BannerDescription" _
             (props !! "className") eq_refl).
    + vm_compute. constructor.
    + intros x. cbn. constructor.
    + unfold jsx_props. cbn [foldl jsx_attr]. apply lookup_insert_eq.
  - eexists. split; [reflexivity|].
    apply (has_class_of_className "BannerPrimaryAction" _
             (props !! "className") eq_refl).
    + vm_compute. constructor.
    + intros x. cbn. constructor.
    + apply action_attrs_className.
  - eexists. split; [reflexivity|].
    apply (has_class_of_className "BannerPrimaryAction" _
             (props !! "className") eq_refl).
    + vm_compute. constructor.
    + intros x. cbn. constructor.
    + apply action_attrs_className.
Qed.

(** ** Outside the actions region the sheet ignores the viewport *)

Lemma no_ancestor_matches (anc : list Props) :
  Forall (λ a, has_class "BannerActions" a = false) anc →
  above (ByClass "BannerActions") anc = None.
Proof.
  induction 1 as [|a anc Ha _ IH]; [done|].
  cbn [above matches_simple]. by rewrite Ha.
Qed.

Lemma above_some_matches s (anc higher : list Props) :
  above s anc = Some higher → existsb (matches_simple s) anc = true.
Proof.
  induction anc as [|a anc IH]; [done|]. cbn [above existsb].
  destruct (matches_simple s a); [done|]. apply IH.
Qed.

(** X6: for an element none of whose ancestors has the class
    [BannerActions], the [display] the sheet computes is the same at
    every viewport width: the markers [data-hide-on-sm] and
    [data-hide-on-md] hide nothing outside the actions region. *)
Theorem display_fixed_outside_actions (w1 w2 : Z) (anc : list Props)
    (attrs : Props) :
  Forall (λ a, has_class "BannerActions" a = false) anc →
  computed_display w1 anc attrs = computed_display w2 anc attrs.
Proof.
  intros H. apply no_ancestor_matches in H.
  expose_cascade. rewrite H, !andb_false_r. reflexivity.
Qed.

Lemma display_fixed_outside_actions_witness :
  computed_display 320 [] {["data-hide-on-sm" := PStr ""]}
  = computed_display 1024 [] {["data-hide-on-sm" := PStr ""]}.
Proof.
  apply (display_fixed_outside_actions 320 1024 []
           {["data-hide-on-sm" := PStr ""]}).
  constructor.
Defined.

(** ** What a pass may do to the render state *)

Lemma pass_ok_refl dev free st : pass_ok dev free st st.
Proof.
  split_and!; [lia| |done]. exists []. by rewrite app_nil_r.
Qed.

Lemma pass_ok_trans dev f1 f2 st st1 st2 :
  pass_ok dev f1 st st1 → pass_ok dev f2 st1 st2 →
  pass_ok dev (f1 && f2) st st2.
Proof.
  intros (Hn1 & (m1 & He1 & Hp1 & Hc1) & Hf1)
         (Hn2 & (m2 & He2 & Hp2 & Hc2) & Hf2).
  split_and!; [lia| |].
  - exists (m1 ++ m2)%list. split_and!.
    + by rewrite He2, He1, app_assoc.
    + intros Hd. by rewrite Hp1, Hp2.
    + by apply Forall_app.
  - intros [? ?]%andb_true_iff. rewrite Hf2, Hf1; done.
Qed.

Lemma pass_ok_weaken dev f1 f2 st st' :
  (f2 = true → f1 = true) → pass_ok dev f1 st st' → pass_ok dev f2 st st'.
Proof. intros Hf (? & ? & Hs). split_and!; [done..|]. auto. Qed.

Lemma mapM_outcome dev fuel ctx (items : list ReactNode) :
  (∀ n st, outcome_ok dev (banner_free n) ctx st (render dev fuel ctx n st)) →
  ∀ st, outcome_ok dev (forallb banner_free items) ctx st
          (mapM (render dev fuel ctx) items st).
Proof.
  intros Hr. induction items as [|n items IH]; intros st.
  - apply pass_ok_refl.
  - rewrite mapM_cons. specialize (Hr n st).
    destruct (render dev fuel ctx n st) as [[d st1]| |]; [|done..].
    specialize (IH st1).
    destruct (mapM (render dev fuel ctx) items st1) as [[ds st2]| |];
      [|done..].
    cbn [forallb]. by eapply pass_ok_trans.
Qed.

Lemma outcome_ok_concat dev free ctx st
    (o : Outcome (list (list Dom) * RenderState)) :
  outcome_ok dev free ctx st o →
  outcome_ok dev free ctx st
    match o with
    | Done (kids, st') => Done (concat kids, st')
    | Throw e => Throw e
    | OutOfFuel => OutOfFuel
    end.
Proof. by destruct o as [[kids st']| |]. Qed.

Lemma banner_free_nullish_or n :
  banner_free n = true → banner_free (n ?? JNull) = true.
Proof. unfold nullish_or. by destruct (nullish n). Qed.

Lemma banner_free_BannerActions pa sa :
  banner_free (JBannerActions pa sa) = true →
  banner_free (BannerActions pa sa) = true.
Proof.
  cbn [banner_free]. intros [Hp Hs]%andb_true_iff.
  unfold BannerActions, div. cbn [banner_free forallb].
  by rewrite !banner_free_nullish_or.
Qed.

Lemma title_check_Banner id :
  title_check (λ document,
    match document_getElementById id document with
    | None => Throw MissingAccessibleTitle
    | Some _ => Done tt
    end).
Proof. intros document. destruct (document_getElementById _ _); auto. Qed.

Lemma render_outcome dev fuel ctx n st :
  outcome_ok dev (banner_free n) ctx st (render dev fuel ctx n st).
Proof.
  revert ctx n st. induction fuel as [|fuel IH]; intros ctx n st; [done|].
  destruct n as [| | | | |items|ty props children|value children|p
                 |as_ props children|props children|pa sa
                 |props children|props children].
  1-5: apply pass_ok_refl.
  - rewrite render_arr. apply outcome_ok_concat.
    apply mapM_outcome. intros; apply IH.
  - rewrite render_elem.
    pose proof (mapM_outcome dev fuel ctx children
                  ltac:(intros; apply IH) st) as H.
    by destruct (mapM (render dev fuel ctx) children st) as [[k s]| |].
  - rewrite render_provider.
    pose proof (mapM_outcome dev fuel (Some value) children
                  ltac:(intros; apply IH) st) as H.
    destruct (mapM (render dev fuel (Some value)) children st)
      as [[k s]| |]; [done| |done].
    by destruct H.
  - rewrite render_Banner.
    destruct (Banner_returns dev p st) as (effs & -> & Heffs).
    specialize (IH ctx (Banner_tree p (mkId (next_id st)))
                  {| next_id := S (next_id st);
                     effects := (effects st ++ effs)%list |}).
    destruct (render dev fuel ctx _ _) as [[doms st']| |]; [|done..].
    destruct IH as (Hn & (more & He & Hp & Hc) & _).
    cbn [next_id effects] in *. split_and!; [lia| |done].
    exists (effs ++ more)%list. split_and!.
    + by rewrite He, app_assoc.
    + intros ->. by rewrite Heffs, Hp.
    + apply Forall_app. split; [|done]. rewrite Heffs.
      destruct dev; [|constructor].
      constructor; [apply title_check_Banner|constructor].
  - destruct ctx as [c|]; [|done]. rewrite render_BannerTitle.
    pose proof (IH (Some c)
      (JElem (Host (heading_tag (default h2 as_)))
         (jsx_props [Spread (omit ["as"; "className"; "children"] props);
                     Attr "id" (PStr (titleId c));
                     Attr "className"
                       (PStr (cx [Some (PStr "BannerTitle");
                                  props !! "className"]))])
         [children]) st) as H.
    destruct (render dev fuel (Some c) _ st) as [[doms st']| |]; [|done..].
    eapply pass_ok_weaken; [|exact H].
    cbn [banner_free forallb]. by intros ->.
  - specialize (IH ctx (BannerDescription props children) st).
    cbn [render].
    destruct (render dev fuel ctx _ st) as [[doms st']| |]; [|done..].
    eapply pass_ok_weaken; [|exact IH].
    cbn [BannerDescription banner_free forallb]. by intros ->.
  - specialize (IH ctx (BannerActions pa sa) st). cbn [render].
    destruct (render dev fuel ctx _ st) as [[doms st']| |]; [|done..].
    eapply pass_ok_weaken; [|exact IH]. apply banner_free_BannerActions.
  - specialize (IH ctx (BannerPrimaryAction props children) st).
    cbn [render].
    destruct (render dev fuel ctx _ st) as [[doms st']| |]; [|done..].
    eapply pass_ok_weaken; [|exact IH].
    cbn [BannerPrimaryAction banner_free forallb]. by intros ->.
  - specialize (IH ctx (BannerSecondaryAction props children) st).
    cbn [render].
    destruct (render dev fuel ctx _ st) as [[doms st']| |]; [|done..].
    eapply pass_ok_weaken; [|exact IH].
    cbn [BannerSecondaryAction banner_free forallb]. by intros ->.
Qed.

Lemma mapM_nil {A B} (f : A → Render B) st :
  mapM f [] st = Done ([], st).
Proof. reflexivity. Qed.

(** ** Enough fuel *)

Lemma mapM_fuel_enough dev fuel ctx (items : list ReactNode) :
  Forall (λ n, ∀ st, render dev fuel ctx n st ≠ OutOfFuel) items →
  ∀ st, mapM (render dev fuel ctx) items st ≠ OutOfFuel.
Proof.
  induction 1 as [|n items Hn _ IH]; intros st; [done|].
  rewrite mapM_cons. specialize (Hn st).
  destruct (render dev fuel ctx n st) as [[d st1]| |]; [|done..].
  specialize (IH st1).
  by destruct (mapM (render dev fuel ctx) items st1) as [[ds st2]| |].
Qed.

Lemma render_fuel_enough dev fuel ctx n st :
  (weight n ≤ fuel)%nat → render dev fuel ctx n st ≠ OutOfFuel.
Proof.
  revert ctx n st. induction fuel as [|fuel IH]; intros ctx n st Hw.
  { pose proof (weight_pos n). lia. }
  assert (∀ ctx (l : list ReactNode),
            (sum_list_with weight l ≤ fuel)%nat →
            ∀ st, mapM (render dev fuel ctx) l st ≠ OutOfFuel) as Hl.
  { intros ctx' l Hs. apply mapM_fuel_enough, Forall_forall.
    intros x Hx st'. apply IH.
    pose proof (weight_elem_of x l Hx). lia. }
  destruct n as [| | | | |items|ty props children|value children|p
                 |as_ props children|props children|pa sa
                 |props children|props children]; cbn [weight] in Hw.
  1-5: done.
  - rewrite render_arr. specialize (Hl ctx items ltac:(lia) st).
    by destruct (mapM (render dev fuel ctx) items st) as [[k s]| |].
  - rewrite render_elem. specialize (Hl ctx children ltac:(lia) st).
    by destruct (mapM (render dev fuel ctx) children st) as [[k s]| |].
  - rewrite render_provider.
    specialize (Hl (Some value) children ltac:(lia) st).
    by destruct (mapM (render dev fuel (Some value)) children st)
      as [[k s]| |].
  - rewrite render_Banner.
    destruct (Banner_returns dev p st) as (effs & -> & _).
    apply IH. pose proof (weight_Banner_tree p (mkId (next_id st))) as H.
    cbn [weight] in H. lia.
  - destruct ctx as [c|]; [|done]. rewrite render_BannerTitle.
    apply IH. cbn [weight sum_list_with]. lia.
  - cbn [render]. apply IH. cbn [BannerDescription weight sum_list_with]. lia.
  - cbn [render]. apply IH. pose proof (weight_BannerActions pa sa) as H.
    cbn [weight] in H. lia.
  - cbn [render]. apply IH.
    cbn [BannerPrimaryAction weight sum_list_with]. lia.
  - cbn [render]. apply IH.
    cbn [BannerSecondaryAction weight sum_list_with]. lia.
Qed.

Lemma run_effects_title_checks document (effs : list Effect) :
  Forall title_check effs →
  run_effects document effs = Done tt ∨
  run_effects document effs = Throw MissingAccessibleTitle.
Proof.
  induction 1 as [|eff effs He _ IH]; [by left|].
  cbn [run_effects]. destruct (He document) as [-> | ->]; [done|by right].
Qed.

Lemma getElementById_some id d :
  count_id id d ≠ 0%nat → is_Some (getElementById id d).
Proof.
  revert d. fix IH 1. intros [s|ty attrs kids]; [done|].
  rewrite count_id_elem. cbn [getElementById].
  destruct (has_id id attrs); [by eexists|]. cbn [Nat.b2n Nat.add].
  induction kids as [|k kids IHk]; [done|].
  rewrite count_ids_cons. intros H.
  destruct (decide (count_id id k = 0%nat)) as [Hk|Hk].
  - rewrite (getElementById_none id k Hk). apply IHk. lia.
  - destruct (IH k Hk) as [e ->]. by eexists.
Qed.

Lemma document_getElementById_some id document :
  count_ids id document ≠ 0%nat →
  is_Some (document_getElementById id document).
Proof.
  induction document as [|d document IH]; [done|].
  rewrite count_ids_cons. intros H. cbn [document_getElementById].
  destruct (decide (count_id id d = 0%nat)) as [Hd|Hd].
  - rewrite (getElementById_none id d Hd). apply IH. lia.
  - destruct (getElementById_some id d Hd) as [e ->]. by eexists.
Qed.

(** ** Mounting *)

(** X7: a mount throws nothing but the two errors of the file:
    [ContextMisuse], or, in a development build only,
    [MissingAccessibleTitle]. *)
Theorem mount_throws_only dev fuel (root : ReactNode) e :
  mount dev fuel root = Throw e →
  e = ContextMisuse ∨ (dev = true ∧ e = MissingAccessibleTitle).
Proof.
  unfold mount.
  pose proof (render_outcome dev fuel BannerContext root initial_state) as H.
  destruct (render dev fuel BannerContext root initial_state)
    as [[document st]|e'|]; [| |done].
  - destruct H as (_ & (more & He & Hp & Hc) & _).
    cbn [initial_state effects app] in He. rewrite He.
    destruct dev.
    + destruct (run_effects_title_checks document more Hc) as [-> | ->];
        [done|]. intros [= <-]. by right.
    + by rewrite (Hp eq_refl).
  - destruct H as [-> _]. intros [= <-]. by left.
Qed.

(** X8: a Banner root mounts whatever it is handed, Titles at any
    depth included: a production build returns a document that is one
    [section]; a development build returns the same document or throws
    [MissingAccessibleTitle], and never [ContextMisuse]. *)
Theorem Banner_root_mounts fuel (p : BannerProps ReactNode) :
  (weight (JBanner p) ≤ fuel)%nat →
  ∃ attrs kids,
    mount false fuel (JBanner p) = Done [DElem (Host "section") attrs kids] ∧
    (mount true fuel (JBanner p) = Done [DElem (Host "section") attrs kids] ∨
     mount true fuel (JBanner p) = Throw MissingAccessibleTitle).
Proof.
  intros Hw.
  destruct (Banner_root_renders true fuel BannerContext p initial_state Hw)
    as (kids & st1 & more1 & Hr1 & _).
  destruct (Banner_root_renders false fuel BannerContext p initial_state Hw)
    as (kids2 & st2 & more2 & Hr2 & He2 & Hp2 & _).
  pose proof (render_build_irrelevant fuel BannerContext (JBanner p)
                initial_state initial_state eq_refl) as Hsame.
  rewrite Hr1, Hr2 in Hsame. destruct Hsame as [Hdoc _].
  rewrite <-Hdoc in Hr2.
  pose proof (render_outcome true fuel BannerContext (JBanner p)
                initial_state) as Ho.
  rewrite Hr1 in Ho. destruct Ho as (_ & (more & He & _ & Hc) & _).
  cbn [initial_state effects app] in He, He2.
  do 2 eexists. unfold mount. rewrite Hr1, Hr2, He, He2, (Hp2 eq_refl).
  split; [reflexivity|].
  destruct (run_effects_title_checks
              [DElem (Host "section")
                 (container_attrs p (mkId (next_id initial_state))) kids]
              more Hc) as [-> | ->]; [by left|by right].
Qed.

(** X9: only Banner roots use the render state.  A node with no Banner
    root in it, rendered with enough fuel, draws no identifier and
    schedules no effect: below a provider it returns a tree and the
    state it was given; with no provider above, it does the same or
    throws [ContextMisuse]. *)
Theorem render_without_roots dev fuel ctx (n : ReactNode) st :
  banner_free n = true →
  (weight n ≤ fuel)%nat →
  (∃ doms, render dev fuel ctx n st = Done (doms, st)) ∨
  (ctx = None ∧ render dev fuel ctx n st = Throw ContextMisuse).
Proof.
  intros Hf Hw.
  pose proof (render_outcome dev fuel ctx n st) as Ho.
  pose proof (render_fuel_enough dev fuel ctx n st Hw) as He.
  destruct (render dev fuel ctx n st) as [[doms st']|e|]; [| |done].
  - destruct Ho as (_ & _ & Hs). rewrite (Hs Hf). left. by eexists.
  - destruct Ho as [-> ->]. by right.
Qed.

Lemma banner_free_Banner_tree (p : BannerProps ReactNode) id :
  banner_free_props p = true → banner_free (Banner_tree p id) = true.
Proof.
  unfold banner_free_props. rewrite !andb_true_iff.
  intros [[[[[Hc Hd] Hi] Hp] Hs] Ht].
  unfold Banner_tree, icon_slot, content_slot, actions_slot, dismiss_slot, div.
  cbn [banner_free forallb].
  assert (banner_free
            (bp_icon p ?? iconForVariant (default info (bp_variant p)))
          = true) as ->.
  { unfold nullish_or. destruct (nullish (bp_icon p)); [|done].
    by destruct (default info (bp_variant p)). }
  rewrite Hc.
  destruct (truthy (bp_title p)), (truthy (bp_description p)),
    (truthy (bp_primaryAction p) || truthy (bp_secondaryAction p)),
    (if bool_decide (default info (bp_variant p) ≠ critical)
     then bp_onDismiss p else None);
    cbn [banner_free forallb dismiss_button andb];
    rewrite ?Ht, ?Hd, ?Hp, ?Hs; reflexivity.
Qed.

(** X10: for a Banner root with no other Banner root inside it the
    development check is exact the other way round too: with at least
    one title source the development mount throws nothing and returns
    the document the production mount returns. *)
Theorem Banner_titled_mounts fuel (p : BannerProps ReactNode) :
  banner_free_props p = true →
  (weight (JBanner p) ≤ fuel)%nat →
  title_sources (mkId 0) p ≠ 0%nat →
  ∃ document,
    mount true fuel (JBanner p) = Done document ∧
    mount false fuel (JBanner p) = Done document.
Proof.
  intros Hf Hw Hs.
  destruct (Banner_root_renders true fuel BannerContext p initial_state Hw)
    as (kids & st1 & more1 & Hr1 & _ & _ & Hc1).
  destruct (Banner_root_renders false fuel BannerContext p initial_state Hw)
    as (kids2 & st2 & more2 & Hr2 & He2 & Hp2 & _).
  pose proof (render_build_irrelevant fuel BannerContext (JBanner p)
                initial_state initial_state eq_refl) as Hsame.
  rewrite Hr1, Hr2 in Hsame. destruct Hsame as [Hdoc _].
  rewrite <-Hdoc in Hr2.
  cbn [initial_state next_id effects app] in *.
  eexists. unfold mount. rewrite Hr1, Hr2, He2, (Hp2 eq_refl).
  split; [|reflexivity].
  destruct fuel as [|fuel]; [done|].
  rewrite render_Banner in Hr1.
  destruct (Banner_returns true p initial_state) as (effs & Hb & Heffs).
  rewrite Hb in Hr1. cbn [initial_state next_id effects app] in *.
  pose proof (render_outcome true fuel BannerContext
                (Banner_tree p (mkId 0))
                {| next_id := 1; effects := effs |}) as Ho.
  rewrite Hr1 in Ho. destruct Ho as (_ & _ & Hst).
  rewrite (Hst (banner_free_Banner_tree p (mkId 0) Hf)), Heffs.
  cbn [effects run_effects].
  destruct (document_getElementById_some (mkId 0)
              [DElem (Host "section") (container_attrs p (mkId 0)) kids])
    as [e ->]; [by rewrite Hc1|reflexivity].
Qed.

(** X11: whatever a Banner root is handed, the number of elements of
    its rendering that carry the generated identifier is the number of
    title sources of its props: one for a truthy [title] prop, one for
    each Title below it that reads its context, twice over for what
    sits in an action (both arrangements are rendered), and one for
    each element the caller gave that [id]. *)
Theorem Banner_id_census dev fuel ctx (p : BannerProps ReactNode) st :
  (weight (JBanner p) ≤ fuel)%nat →
  ∃ document st',
    render dev fuel ctx (JBanner p) st = Done (document, st') ∧
    count_ids (mkId (next_id st)) document
    = title_sources (mkId (next_id st)) p.
Proof.
  intros Hw.
  destruct (Banner_root_renders dev fuel ctx p st Hw)
    as (kids & st' & more & Hr & _ & _ & Hc).
  by eexists _, st'.
Qed.

(** X12: the build flag never shows in what a pass returns: for every
    node, context and state, a development and a production build
    render the same tree and draw the same identifiers, or throw the
    same error. *)
Theorem build_flag_same_tree fuel ctx (n : ReactNode) st :
  same_outcome (render true fuel ctx n st) (render false fuel ctx n st).
Proof. by apply render_build_irrelevant. Qed.

(** ** The element the label points to *)

Lemma getElementById_elem id ty attrs kids :
  getElementById id (DElem ty attrs kids)
  = if has_id id attrs then Some (DElem ty attrs kids)
    else document_getElementById id kids.
Proof.
  cbn [getElementById]. destruct (has_id id attrs); [done|].
  induction kids as [|k kids IH]; [done|].
  cbn [document_getElementById]. by rewrite IH.
Qed.

Lemma document_getElementById_app id l1 l2 :
  document_getElementById id (l1 ++ l2)
  = match document_getElementById id l1 with
    | Some e => Some e
    | None => document_getElementById id l2
    end.
Proof.
  induction l1 as [|d l1 IH]; [done|].
  cbn [app document_getElementById]. by destruct (getElementById id d).
Qed.

(** X13: when the [title] prop is the one title source of a Banner
    root, the element [document.getElementById] finds for the generated
    identifier, the one [aria-labelledby] points to, is the [h2] of
    class [BannerTitle] that the root renders for the prop. *)
Theorem Banner_label_is_heading dev fuel ctx (p : BannerProps ReactNode) st :
  (weight (JBanner p) ≤ fuel)%nat →
  truthy (bp_title p) = true →
  title_sources (mkId (next_id st)) p = 1%nat →
  ∃ document st' attrs kids,
    render dev fuel ctx (JBanner p) st = Done (document, st') ∧
    document_getElementById (mkId (next_id st)) document
      = Some (DElem (Host "h2") attrs kids) ∧
    attrs !! "className" = Some (PStr "BannerTitle") ∧
    attrs !! "id" = Some (PStr (mkId (next_id st))).
Proof.
  intros Hw Ht Hs.
  destruct fuel as [|[|[|[|[|[|[|fuel]]]]]]]; try (cbn [weight] in Hw; lia).
  cbn [weight] in Hw.
  set (tid := mkId (next_id st)) in *.
  set (v := {| titleId := tid |}).
  assert (String.eqb (titleId v) tid = true) as Hv
    by apply String.eqb_refl.
  unfold title_sources, banner_count in Hs. rewrite Ht in Hs.
  assert (has_id tid (bp_attrs p) = false) as Hroot
    by (destruct (has_id tid (bp_attrs p)); [cbn in Hs; lia|done]).
  assert (title_count tid true (bp_icon p) = 0%nat) as Hicon
    by (cbn [Nat.b2n] in Hs; lia).
  assert (∀ a b : ReactNode,
            (weight (a ?? b) ≤ weight a + weight b)%nat) as Hwn.
  { intros a b. unfold nullish_or. destruct (nullish a); lia. }
  assert (weight (iconForVariant (default info (bp_variant p))) = 1%nat)
    as Hwi by (by destruct (default info (bp_variant p))).
  pose proof (Hwn (bp_icon p) (iconForVariant (default info (bp_variant p))))
    as Hwicon.
  assert (weight (if truthy (bp_description p)
                  then JBannerDescription ∅ (bp_description p) else JNull)
          ≤ 2 + weight (bp_description p))%nat as Hwd
    by (destruct (truthy (bp_description p)); cbn [weight]; lia).
  assert (weight (actions_slot p)
          ≤ 4 + 2 * weight (bp_primaryAction p) +
            2 * weight (bp_secondaryAction p))%nat as Hwa
    by (unfold actions_slot; destruct (_ || _); cbn [weight]; lia).
  assert (weight (dismiss_slot p) = 1%nat) as Hwx
    by (unfold dismiss_slot; by destruct (if bool_decide _ then _ else _)).
  rewrite render_Banner.
  destruct (Banner_returns dev p st) as (effs & -> & _).
  fold tid. unfold Banner_tree. fold v.
  set (s0 := {| next_id := S (next_id st);
                effects := (effects st ++ effs)%list |}).
  assert (next_id st < next_id s0)%nat as Hn0 by (cbn; lia).
  rewrite render_provider, mapM_cons, render_elem, mapM_cons.
  unfold icon_slot, div at 1.
  rewrite render_elem, mapM_cons.
  destruct (render_tracks dev (next_id st) (S (S (S fuel)))
              (bp_icon p ?? iconForVariant (default info (bp_variant p)))
              ltac:(lia) v s0 Hn0)
    as (icon_d & s1 & -> & Hn1 & _ & Hc1).
  fold tid in Hc1. rewrite Hv, title_count_icon, Hicon in Hc1.
  cbv beta iota. rewrite mapM_nil. cbv beta iota.
  unfold div at 1. rewrite mapM_cons, render_elem, mapM_cons.
  unfold content_slot, div at 1. rewrite Ht.
  rewrite render_elem, mapM_cons, render_BannerTitle, render_elem, mapM_cons.
  destruct (render_tracks dev (next_id st) fuel (bp_title p)
              ltac:(lia) v s1 ltac:(lia))
    as (title_d & s2 & -> & Hn2 & _ & _).
  cbv beta iota. rewrite mapM_nil. cbv beta iota.
  rewrite mapM_cons.
  destruct (render_tracks dev (next_id st) (S (S fuel))
              (if truthy (bp_description p)
               then JBannerDescription ∅ (bp_description p) else JNull)
              ltac:(lia) v s2 ltac:(lia))
    as (desc_d & s3 & -> & Hn3 & _ & _).
  cbv beta iota. rewrite mapM_cons.
  destruct (render_tracks dev (next_id st) (S (S fuel)) (bp_children p)
              ltac:(lia) v s3 ltac:(lia))
    as (child_d & s4 & -> & Hn4 & _ & _).
  cbv beta iota. rewrite mapM_nil. cbv beta iota.
  rewrite mapM_cons.
  destruct (render_tracks dev (next_id st) (S (S (S fuel))) (actions_slot p)
              ltac:(lia) v s4 ltac:(lia))
    as (act_d & s5 & -> & Hn5 & _ & _).
  cbv beta iota. rewrite mapM_nil. cbv beta iota.
  rewrite mapM_cons.
  destruct (render_tracks dev (next_id st) (S (S (S (S fuel))))
              (dismiss_slot p) ltac:(lia) v s5 ltac:(lia))
    as (dis_d & s6 & -> & Hn6 & _ & _).
  cbv beta iota. rewrite mapM_nil. cbv beta iota.
  do 4 eexists. split; [reflexivity|].
  cbn [concat app document_getElementById].
  rewrite getElementById_elem, has_id_container, Hroot.
  cbn [document_getElementById].
  rewrite getElementById_elem, has_id_div, !app_nil_r.
  rewrite (document_getElementById_none tid icon_d Hc1).
  rewrite getElementById_elem, has_id_div.
  cbn [document_getElementById].
  rewrite getElementById_elem, has_id_div.
  cbn [document_getElementById].
  rewrite getElementById_elem, has_id_title, Hv.
  split; [reflexivity|].
  unfold jsx_props. cbn [foldl jsx_attr]. split.
  - by rewrite lookup_insert_eq, lookup_empty.
  - by rewrite lookup_insert_ne, lookup_insert_eq.
Qed.

(** ** The actions region in the document *)

Lemma render_nullish_or dev fuel ctx (n : ReactNode) st doms st' :
  render dev fuel ctx n st = Done (doms, st') →
  render dev fuel ctx (n ?? JNull) st = Done (doms, st').
Proof.
  destruct fuel as [|fuel]; [done|].
  unfold nullish_or. by destruct n.
Qed.

Lemma render_BannerActions dev fuel ctx (pa sa : ReactNode) st :
  render dev (S fuel) ctx (JBannerActions pa sa) st
  = render dev fuel ctx (BannerActions pa sa) st.
Proof. reflexivity. Qed.

Lemma render_below_provider dev fuel c (n : ReactNode) st :
  banner_free n = true →
  (weight n ≤ fuel)%nat →
  ∃ doms, render dev fuel (Some c) n st = Done (doms, st).
Proof.
  intros Hf Hw.
  pose proof (render_outcome dev fuel (Some c) n st) as Ho.
  pose proof (render_fuel_enough dev fuel (Some c) n st Hw) as He.
  destruct (render dev fuel (Some c) n st) as [[doms st']|e|]; [| |done].
  - destruct Ho as (_ & _ & Hs). rewrite (Hs Hf). by eexists.
  - by destruct Ho as [_ ?].
Qed.

(** X14: in the document, the actions region of a Banner root holds
    the rendering of each action twice, once per arrangement: for
    actions with no Banner root in them, the first box holds the
    rendering of the secondary action followed by that of the primary
    one, the second box the same two the other way round. *)
Theorem BannerActions_renders_both dev fuel c (pa sa : ReactNode) st :
  banner_free pa = true → banner_free sa = true →
  (weight pa ≤ fuel)%nat → (weight sa ≤ fuel)%nat →
  ∃ pa_d sa_d outer sm md,
    render dev fuel (Some c) pa st = Done (pa_d, st) ∧
    render dev fuel (Some c) sa st = Done (sa_d, st) ∧
    render dev (S (S (S fuel))) (Some c) (JBannerActions pa sa) st =
      Done ([DElem (Host "div") outer
               [DElem (Host "div") sm (sa_d ++ pa_d);
                DElem (Host "div") md (pa_d ++ sa_d)]], st) ∧
    sm !! "data-hide-on-sm" = Some (PStr "") ∧
    md !! "data-hide-on-md" = Some (PStr "").
Proof.
  intros Hfp Hfs Hwp Hws.
  destruct (render_below_provider dev fuel c pa st Hfp Hwp) as [pa_d Hp].
  destruct (render_below_provider dev fuel c sa st Hfs Hws) as [sa_d Hs].
  exists pa_d, sa_d. do 3 eexists. split; [exact Hp|]. split; [exact Hs|].
  apply render_nullish_or in Hp, Hs.
  split.
  - rewrite render_BannerActions. unfold BannerActions, div.
    rewrite render_elem, mapM_cons, render_elem.
    rewrite mapM_cons, Hs. cbv beta iota.
    rewrite mapM_cons, Hp. cbv beta iota.
    rewrite mapM_nil. cbv beta iota.
    rewrite mapM_cons, render_elem.
    rewrite mapM_cons, Hp. cbv beta iota.
    rewrite mapM_cons, Hs. cbv beta iota.
    rewrite !mapM_nil. cbv beta iota.
    cbn [concat app]. by rewrite !app_nil_r.
  - unfold jsx_props. cbn [foldl jsx_attr].
    split; apply lookup_insert_eq.
Qed.

(** ** What the sheet hides *)

(** X15: the sheet hides nothing but a marked arrangement of the
    actions region: an element is computed [display: none] only if an
    ancestor has the class [BannerActions] and the element is marked
    [data-hide-on-sm] on a viewport narrower than 544px, or marked
    [data-hide-on-md] on one of 544px or more. *)
Theorem hidden_only_when_marked (width : Z) (anc : list Props) (attrs : Props) :
  computed_display width anc attrs = d_none →
  existsb (matches_simple (ByClass "BannerActions")) anc = true ∧
  ((is_Some (attrs !! "data-hide-on-sm") ∧ width < 544) ∨
   (is_Some (attrs !! "data-hide-on-md") ∧ 544 ≤ width)).
Proof.
  expose_cascade. cbn [matches_simple].
  destruct (above (ByClass "BannerActions") anc) as [higher|] eqn:Ha.
  - rewrite (above_some_matches _ _ _ Ha).
    generalize (root_scoped higher), (root_scoped anc),
      (has_class StyledBanner_class attrs), (has_class "BannerIcon" attrs),
      (has_class "BannerContainer" attrs), (has_class "BannerContent" attrs),
      (has_class "BannerActionsContainer" attrs),
      (has_class "BannerDismiss" attrs).
    destruct (bool_decide (is_Some (attrs !! "data-hide-on-sm"))) eqn:Hsm;
      destruct (bool_decide (is_Some (attrs !! "data-hide-on-md"))) eqn:Hmd;
      destruct (544 <=? width) eqn:Hwd;
      intros [] [] [] [] [] [] [] [] H; vm_compute in H;
      try discriminate; (split; [done|]);
      try apply bool_decide_eq_true in Hsm;
      try apply bool_decide_eq_true in Hmd;
      first [left; split; [done|lia] | right; split; [done|lia]].
  - rewrite !andb_false_r.
    generalize (root_scoped anc),
      (has_class StyledBanner_class attrs), (has_class "BannerIcon" attrs),
      (has_class "BannerContainer" attrs), (has_class "BannerContent" attrs),
      (has_class "BannerActionsContainer" attrs),
      (has_class "BannerDismiss" attrs).
    intros [] [] [] [] [] [] [] H; vm_compute in H; discriminate.
Qed.

Lemma hidden_only_when_marked_witness :
  existsb (matches_simple (ByClass "BannerActions"))
    [jsx_props [Attr "className" (PStr "BannerActions")];
     jsx_props [Attr "className" (PStr StyledBanner_class)]] = true ∧
  ((is_Some (jsx_props [Attr "className" (PStr "BannerActionsContainer");
                        Attr "data-hide-on-sm" (PStr "")]
             !! "data-hide-on-sm") ∧ 320 < 544) ∨
   (is_Some (jsx_props [Attr "className" (PStr "BannerActionsContainer");
                        Attr "data-hide-on-sm" (PStr "")]
             !! "data-hide-on-md") ∧ 544 ≤ 320)).
Proof.
  apply (hidden_only_when_marked 320
           [jsx_props [Attr "className" (PStr "BannerActions")];
            jsx_props [Attr "className" (PStr StyledBanner_class)]]
           (jsx_props [Attr "className" (PStr "BannerActionsContainer");
                       Attr "data-hide-on-sm" (PStr "")])).
  vm_compute. reflexivity.
Defined.

End Styled.

(** ** The theorems at sample inputs *)

Lemma outside_Banner_root_witness :
  (∀ st, render no_other_attr true 2 BannerContext
           (JBannerTitle None ∅ (JStr "Heads up")) st
         = Throw ContextMisuse) ∧
  renders no_other_attr true 3 BannerContext
    (JBannerDescription ∅ (JStr "More")) ∧
  renders no_other_attr true 4 BannerContext
    (JBannerActions (JStr "Save") JUndefined).
Proof.
  apply (outside_Banner_root no_other_attr true 1 None ∅ (JStr "Heads up")
           (JStr "More") (JStr "Save") JUndefined);
    intros st; do 2 eexists; reflexivity.
Defined.

(** C5, as the claim has it, fails: a Description mounted on its own,
    outside every Banner root, renders and throws nothing. *)
Lemma BannerDescription_outside_renders :
  (∃ attrs, mount no_other_attr true 3 (JBannerDescription ∅ (JStr "More"))
            = Done [DElem (Host "div") attrs [DText "More"]]) ∧
  mount no_other_attr true 3 (JBannerDescription ∅ (JStr "More"))
    ≠ Throw ContextMisuse.
Proof. split; [eexists; reflexivity|discriminate]. Qed.

(** C3, as the claim has it, fails: below the container of a Banner
    root, on a viewport 320px wide, the arrangement displayed is
    (primary, secondary), not (secondary, primary). *)
Lemma BannerActions_narrow_primary_first :
  visible_arrangements 320
    [jsx_props [Attr "className" (PStr "BannerContainer")];
     container_attrs no_other_attr banner_with_title_prop (mkId 0)]
    (BannerActions (JStr "Save") (JStr "Cancel"))
    = [[JStr "Save"; JStr "Cancel"]] ∧
  visible_arrangements 320
    [jsx_props [Attr "className" (PStr "BannerContainer")];
     container_attrs no_other_attr banner_with_title_prop (mkId 0)]
    (BannerActions (JStr "Save") (JStr "Cancel"))
    ≠ [[JStr "Cancel"; JStr "Save"]].
Proof. split; [vm_compute; reflexivity|vm_compute; discriminate]. Qed.

(** C8, as the claim has it, fails: [primaryAction={0}] is supplied,
    and React prints it, yet the root renders no actions region. *)
Lemma Banner_zero_action_no_region :
  bp_primaryAction banner_with_zero_action = JNum 0 ∧
  render no_other_attr true 1 None (JNum 0) initial_state
    = Done ([DText "0"], initial_state) ∧
  ∃ value attrs icon content dismiss st',
    Banner no_other_attr true banner_with_zero_action initial_state =
      Done (JProvider value
              [JElem (Host "section") attrs
                 [icon; div "BannerContainer" [content; JNull]; dismiss]],
            st').
Proof.
  split; [reflexivity|]. split; [vm_compute; reflexivity|].
  destruct (Banner_returns no_other_attr true banner_with_zero_action
              initial_state) as (effs & -> & _).
  do 6 eexists. reflexivity.
Qed.

Lemma Banner_single_title_witness :
  (∃ attrs kids st',
     render no_other_attr true 40 None (JBanner banner_with_title_prop)
       initial_state =
       Done ([DElem (Host "section") attrs kids], st') ∧
     attrs !! "aria-labelledby" = Some (PStr (mkId 0)) ∧
     count_ids (mkId 0) [DElem (Host "section") attrs kids] = 1%nat) ∧
  (∃ attrs kids st',
     render no_other_attr false 40 None (JBanner banner_with_nested_title)
       initial_state =
       Done ([DElem (Host "section") attrs kids], st') ∧
     attrs !! "aria-labelledby" = Some (PStr (mkId 0)) ∧
     count_ids (mkId 0) [DElem (Host "section") attrs kids] = 1%nat).
Proof.
  split.
  - apply (Banner_single_title no_other_attr true 40 None
             banner_with_title_prop initial_state);
      [vm_compute; lia|vm_compute; reflexivity].
  - apply (Banner_single_title no_other_attr false 40 None
             banner_with_nested_title initial_state);
      [vm_compute; lia|vm_compute; reflexivity].
Defined.

(** C1, as the claim has it, fails, whichever way its "either ... or"
    is read: with a [title] prop and a nested Title at once, and also
    with no [title] prop and one nested Title that sits in an action,
    two elements of the rendered tree carry the generated identifier. *)
Lemma Banner_two_titles :
  (truthy (bp_title banner_with_both) = true ∧
   ∃ document st',
     render no_other_attr true 40 None (JBanner banner_with_both)
       initial_state = Done (document, st') ∧
     count_ids (mkId 0) document = 2%nat ∧
     count_ids (mkId 0) document ≠ 1%nat) ∧
  (bp_title banner_with_title_in_action = JUndefined ∧
   bp_primaryAction banner_with_title_in_action
     = JBannerTitle None ∅ (JStr "Heads up") ∧
   ∃ document st',
     render no_other_attr true 40 None (JBanner banner_with_title_in_action)
       initial_state = Done (document, st') ∧
     count_ids (mkId 0) document = 2%nat ∧
     count_ids (mkId 0) document ≠ 1%nat).
Proof.
  split.
  - split; [reflexivity|]. eexists _, _.
    split; [vm_compute; reflexivity|].
    split; [vm_compute; reflexivity|vm_compute; discriminate].
  - split; [reflexivity|]. split; [reflexivity|]. eexists _, _.
    split; [vm_compute; reflexivity|].
    split; [vm_compute; reflexivity|vm_compute; discriminate].
Qed.

Lemma Banner_missing_title_witness :
  ∃ document st_dev st_prod,
    render no_other_attr true 40 None (JBanner banner_without_title)
      initial_state = Done (document, st_dev) ∧
    render no_other_attr false 40 None (JBanner banner_without_title)
      initial_state = Done (document, st_prod) ∧
    mount no_other_attr true 40 (JBanner banner_without_title)
      = Throw MissingAccessibleTitle ∧
    mount no_other_attr false 40 (JBanner banner_without_title)
      = Done document.
Proof.
  apply (Banner_missing_title no_other_attr 40 banner_without_title);
    [vm_compute; lia|vm_compute; reflexivity].
Defined.

Lemma mount_throws_only_witness :
  (MissingAccessibleTitle = ContextMisuse ∨
   (true = true ∧ MissingAccessibleTitle = MissingAccessibleTitle)) ∧
  (ContextMisuse = ContextMisuse ∨
   (false = true ∧ ContextMisuse = MissingAccessibleTitle)).
Proof.
  split.
  - apply (mount_throws_only no_other_attr true 40
             (JBanner banner_without_title)).
    vm_compute. reflexivity.
  - apply (mount_throws_only no_other_attr false 2
             (JBannerTitle None ∅ (JStr "Heads up"))).
    vm_compute. reflexivity.
Defined.

Lemma Banner_root_mounts_witness :
  ∃ attrs kids,
    mount no_other_attr false 40 (JBanner banner_with_both)
      = Done [DElem (Host "section") attrs kids] ∧
    (mount no_other_attr true 40 (JBanner banner_with_both)
       = Done [DElem (Host "section") attrs kids] ∨
     mount no_other_attr true 40 (JBanner banner_with_both)
       = Throw MissingAccessibleTitle).
Proof.
  apply (Banner_root_mounts no_other_attr 40 banner_with_both).
  vm_compute. lia.
Defined.

Lemma render_without_roots_witness :
  (∃ doms,
     render no_other_attr true 10 (Some {| titleId := "t" |})
       (JBannerTitle (Some h3) ∅ (JStr "Heads up")) initial_state
     = Done (doms, initial_state)) ∨
  (Some {| titleId := "t" |} = None ∧
   render no_other_attr true 10 (Some {| titleId := "t" |})
     (JBannerTitle (Some h3) ∅ (JStr "Heads up")) initial_state
   = Throw ContextMisuse).
Proof.
  apply (render_without_roots no_other_attr true 10
           (Some {| titleId := "t" |})
           (JBannerTitle (Some h3) ∅ (JStr "Heads up")) initial_state);
    [reflexivity|vm_compute; lia].
Defined.

Lemma Banner_titled_mounts_witness :
  ∃ document,
    mount no_other_attr true 40 (JBanner banner_with_nested_title)
      = Done document ∧
    mount no_other_attr false 40 (JBanner banner_with_nested_title)
      = Done document.
Proof.
  apply (Banner_titled_mounts no_other_attr 40 banner_with_nested_title);
    [reflexivity|vm_compute; lia|vm_compute; discriminate].
Defined.

Lemma Banner_id_census_witness :
  ∃ document st',
    render no_other_attr true 40 None (JBanner banner_with_both) initial_state
      = Done (document, st') ∧
    count_ids (mkId 0) document = title_sources (mkId 0) banner_with_both.
Proof.
  apply (Banner_id_census no_other_attr true 40 None banner_with_both
           initial_state).
  vm_compute. lia.
Defined.

Lemma Banner_label_is_heading_witness :
  ∃ document st' attrs kids,
    render no_other_attr true 40 None (JBanner banner_with_title_prop)
      initial_state = Done (document, st') ∧
    document_getElementById (mkId 0) document
      = Some (DElem (Host "h2") attrs kids) ∧
    attrs !! "className" = Some (PStr "BannerTitle") ∧
    attrs !! "id" = Some (PStr (mkId 0)).
Proof.
  apply (Banner_label_is_heading no_other_attr true 40 None
           banner_with_title_prop initial_state);
    [vm_compute; lia|reflexivity|vm_compute; reflexivity].
Defined.

Lemma BannerActions_renders_both_witness :
  ∃ pa_d sa_d outer sm md,
    render no_other_attr true 5 (Some {| titleId := "t" |})
      (JBannerPrimaryAction ∅ (JStr "Save")) initial_state
      = Done (pa_d, initial_state) ∧
    render no_other_attr true 5 (Some {| titleId := "t" |})
      (JBannerSecondaryAction ∅ (JStr "Cancel")) initial_state
      = Done (sa_d, initial_state) ∧
    render no_other_attr true 8 (Some {| titleId := "t" |})
      (JBannerActions (JBannerPrimaryAction ∅ (JStr "Save"))
         (JBannerSecondaryAction ∅ (JStr "Cancel"))) initial_state =
      Done ([DElem (Host "div") outer
               [DElem (Host "div") sm (sa_d ++ pa_d);
                DElem (Host "div") md (pa_d ++ sa_d)]], initial_state) ∧
    sm !! "data-hide-on-sm" = Some (PStr "") ∧
    md !! "data-hide-on-md" = Some (PStr "").
Proof.
  apply (BannerActions_renders_both no_other_attr true 5 {| titleId := "t" |}
           (JBannerPrimaryAction ∅ (JStr "Save"))
           (JBannerSecondaryAction ∅ (JStr "Cancel")) initial_state);
    [reflexivity|reflexivity|vm_compute; lia|vm_compute; lia].
Defined.
